(** * portfolio-analysis: the windowed linear-regression CAGR estimator

    A shallow embedding of [src/getWindows.mjs], [src/getLinearRegressionCAGR.mjs]
    and [src/helpers/ensureArray.mjs], and the properties their specification
    states about them; then of the functions of [main.mjs] that need no
    statistics package, with the properties their code shows.

    Conventions of the embedding.
    - A JavaScript value is a [JsValue]; a call either returns or throws, which is
      a [Completion].
    - A [Date] carries its time value, an integer count of milliseconds.  The
      millisecond arguments of [getWindows] are integers as well, and all
      arithmetic on milliseconds is done in [Z]: on integers below 2^53 in
      magnitude the double arithmetic of the source (subtraction, product, sum,
      comparison, and the ceiling of a quotient) is exact.
    - An observation's value, and everything the regression computes, is an
      IEEE 754 binary64 number: Rocq's primitive [float]. *)

From Stdlib Require Import ZArith List Bool String Floats Uint63 QArith Qround Lia.
Import ListNotations.
Set Warnings "-register-all".
Open Scope string_scope.
Open Scope list_scope.
Open Scope Z_scope.

(** ** JavaScript values, errors and completions *)

Module Js.

Inductive JsValue : Type :=
| JsUndefined
| JsNull
| JsBoolean (b : bool)
| JsNumber (n : float)
| JsString (s : string)
| JsDate (time : Z)
| JsObject (props : list (string * JsValue))
| JsArray (items : list JsValue).

(** A template literal, kept as its parts: the text between the holes and what
    each hole interpolates.  The conversions to text that fill a hole
    ([String(v)], [JSON.stringify(v)], [join]) belong to the host and are not
    unfolded. *)
Inductive Part : Type :=
| Text (s : string)
| Value (v : JsValue)                  (* ${v} *)
| Json (v : JsValue)                   (* ${JSON.stringify(v)} *)
| Int (n : Z)                          (* ${n}, an integer *)
| Joined (vs : list JsValue)           (* ${vs.join(', ')} *)
| JoinedText (ss : list string).       (* ${ss.join(', ')} *)

Inductive Exception : Type :=
| Error (message : list Part)                  (* throw new Error(`...`) *)
| TypeError (property : string) (base : JsValue).
    (* raised by the engine: [property] cannot be read from, or called on, [base] *)

Inductive Completion (A : Type) : Type :=
| Return (a : A)
| Throw (e : Exception).

Arguments Return {A} a.
Arguments Throw {A} e.

Definition bind {A B : Type} (c : Completion A) (k : A -> Completion B) : Completion B :=
  match c with
  | Return a => k a
  | Throw e => Throw e
  end.

Notation "x <- c ;; k" := (bind c (fun x => k))
  (at level 61, c at next level, right associativity).

Fixpoint mapM {A B : Type} (f : A -> Completion B) (l : list A) : Completion (list B) :=
  match l with
  | [] => Return []
  | x :: rest =>
      y <- f x ;;
      ys <- mapM f rest ;;
      Return (y :: ys)
  end.

Fixpoint filterM {A : Type} (p : A -> Completion bool) (l : list A) : Completion (list A) :=
  match l with
  | [] => Return []
  | x :: rest =>
      keep <- p x ;;
      kept <- filterM p rest ;;
      Return (if keep then x :: kept else kept)
  end.

(** [Array.prototype.every]: stops at the first element the callback rejects. *)
Fixpoint every {A : Type} (p : A -> Completion bool) (l : list A) : Completion bool :=
  match l with
  | [] => Return true
  | x :: rest =>
      ok <- p x ;;
      if ok then every p rest else Return false
  end.

(** The callback of [map] and [Array.from] also receives the index. *)
Fixpoint mapiM_from {A B : Type} (start : nat) (f : nat -> A -> Completion B) (l : list A)
  : Completion (list B) :=
  match l with
  | [] => Return []
  | x :: rest =>
      y <- f start x ;;
      ys <- mapiM_from (S start) f rest ;;
      Return (y :: ys)
  end.

Definition mapiM {A B : Type} := @mapiM_from A B 0%nat.

Fixpoint mapi_from {A B : Type} (start : nat) (f : nat -> A -> B) (l : list A) : list B :=
  match l with
  | [] => []
  | x :: rest => f start x :: mapi_from (S start) f rest
  end.

Definition mapi {A B : Type} := @mapi_from A B 0%nat.

Fixpoint lookup (name : string) (props : list (string * JsValue)) : JsValue :=
  match props with
  | [] => JsUndefined
  | (key, v) :: rest => if String.eqb key name then v else lookup name rest
  end.

(** [base.name] for the two property names the sources read, [value] and
    [date]: a [TypeError] on [undefined] and [null], the stored value on an
    object, and [undefined] on every other value (none of them has a property
    of either name). *)
Definition getProp (name : string) (base : JsValue) : Completion JsValue :=
  match base with
  | JsUndefined | JsNull => Throw (TypeError name base)
  | JsObject props => Return (lookup name props)
  | _ => Return JsUndefined
  end.

(** [d.getTime()] *)
Definition getTime (d : JsValue) : Completion Z :=
  match d with
  | JsDate time => Return time
  | _ => Throw (TypeError "getTime" d)
  end.

(** [typeof v] *)
Definition typeof (v : JsValue) : string :=
  match v with
  | JsUndefined => "undefined"
  | JsBoolean _ => "boolean"
  | JsNumber _ => "number"
  | JsString _ => "string"
  | JsNull | JsDate _ | JsObject _ | JsArray _ => "object"
  end.

(** [v instanceof Date] *)
Definition instanceofDate (v : JsValue) : bool :=
  match v with
  | JsDate _ => true
  | _ => false
  end.

(** [items.at(index)] *)
Definition at_ (items : list JsValue) (index : Z) : JsValue :=
  let k := if index <? 0 then Z.of_nat (List.length items) + index else index in
  if k <? 0 then JsUndefined else nth (Z.to_nat k) items JsUndefined.

(** The number a JavaScript expression over integers evaluates to: the nearest
    double (the integer itself below 2^53; the argument is below 2^63 in
    magnitude). *)
Definition toNumber (z : Z) : float :=
  match z with
  | Z0 => 0%float
  | Zpos _ => of_uint63 (Uint63.of_Z z)
  | Zneg p => (- of_uint63 (Uint63.of_Z (Zpos p)))%float
  end.

(** The number stored in a value that has passed [typeof v === 'number']. *)
Definition numberOf (v : JsValue) : float :=
  match v with
  | JsNumber n => n
  | _ => nan
  end.

(** [Math.ceil(a / b)] on integers: the ceiling of the rational quotient. *)
Definition Math_ceil_div (a b : Z) : Z := Qceiling (inject_Z a / inject_Z b).

End Js.

Import Js.

(** ** src/helpers/getTimes.mjs *)

Module GetTimes.

(** Modelled from the spec: [getTimes.mjs] is not among the sources; its test
    pins [dayInMs] to 86400000 and [yearInMs] to 31536000000, the spec's
    "1 year (365 days of milliseconds)". *)
Definition dayInMs : Z := 86400000.

(** Modelled from the spec: a year of 365 days, in milliseconds. *)
Definition yearInMs : Z := 365 * dayInMs.

End GetTimes.

(** ** src/helpers/ensureArray.mjs *)

Module EnsureArray.

(** [type] is [Some name] for a type name and [None] for a falsy argument
    ([false], as [getLinearRegressionCAGR] passes); an omitted argument is the
    default [Some "number"]. *)
Definition ensureArray (data : JsValue) (type : option string) : Completion (list JsValue) :=
  match data with
  | JsArray items =>
      match type with
      | Some name =>
          let invalidItems := filter (fun item => negb (String.eqb (typeof item) name)) items in
          match invalidItems with
          | [] => Return items
          | _ :: _ =>
              Throw (Error [Text "Expected every item of array to be of type "; Text name;
                            Text ", got items "; Joined invalidItems;
                            Text " with types "; JoinedText (map typeof invalidItems);
                            Text " instead."])
          end
      | None => Return items
      end
  | _ => Throw (Error [Text "Expected parameter to be an array, got "; Value data;
                       Text " instead."])
  end.

End EnsureArray.

(** ** src/getWindows.mjs *)

Module GetWindows.

(** The callback of [data.every]:
    [typeof item.value === 'number' && item.date instanceof Date]. *)
Definition hasValidValues (item : JsValue) : Completion bool :=
  value <- getProp "value" item ;;
  if String.eqb (typeof value) "number"
  then date <- getProp "date" item ;; Return (instanceofDate date)
  else Return false.

(** [item.date.getTime()] *)
Definition dateTime (item : JsValue) : Completion Z :=
  date <- getProp "date" item ;;
  getTime date.

(** Where window [index] starts and where it ends, relative to the start time:
    [index * segmentBaseLength] and [start + windowSizeInMs]. *)
Definition windowStart (segmentBaseLength : Z) (index : nat) : Z :=
  Z.of_nat index * segmentBaseLength.

Definition windowEnd (segmentBaseLength windowSizeInMs : Z) (index : nat) : Z :=
  windowStart segmentBaseLength index + windowSizeInMs.

(** Lines 32 to 37: [Array.from({ length: amountOfWindows }, (value, index) => ...)].
    The items are only read through [time], so the construction is the same for
    any representation of an item, an object or a reference to one. *)
Definition windowsOf {Item : Type} (time : Item -> Completion Z) (data : list Item)
    (startTime segmentBaseLength windowSizeInMs amountOfWindows : Z)
  : Completion (list (list Item)) :=
  mapM (fun index =>
          let start := windowStart segmentBaseLength index in
          let end_ := windowEnd segmentBaseLength windowSizeInMs index in
          filterM (fun item =>
                     t <- time item ;;
                     if t - startTime >=? start
                     then t' <- time item ;; Return (t' - startTime <? end_)
                     else Return false)
                  data)
       (seq 0 (Z.to_nat amountOfWindows)).

Definition dataError (data : JsValue) : Exception :=
  Error [Text "Argument data must be an array of objects, each with properties date {Date} and value {Number}; got ";
         Json data; Text " instead."].

Definition windowSizeError (windowSizeInMs : Z) : Exception :=
  Error [Text "Window size must be a positive number, got "; Int windowSizeInMs;
         Text " instead."].

Definition overlapError (overlapInMs windowSizeInMs : Z) : Exception :=
  Error [Text "Overlap must be smaller than window size; got overlap "; Int overlapInMs;
         Text " and window size "; Int windowSizeInMs; Text "."].

(** [overlapInMs] is [None] when the argument is omitted.  [windowSizeInMs] is a
    number by its type, so that of line 21 only [windowSizeInMs <= 0] is left to
    test. *)
Definition getWindows (data : JsValue) (windowSizeInMs : Z) (overlapInMs : option Z)
  : Completion (list (list JsValue)) :=
  let overlapInMs := match overlapInMs with Some overlap => overlap | None => 0 end in
  let dataIsArray := match data with JsArray _ => true | _ => false end in
  let items := match data with JsArray items => items | _ => [] end in
  dataHasValidValues <- (if dataIsArray then every hasValidValues items else Return false) ;;
  if negb dataIsArray || negb dataHasValidValues then Throw (dataError data)
  else if windowSizeInMs <=? 0 then Throw (windowSizeError windowSizeInMs)
  else if overlapInMs >=? windowSizeInMs then Throw (overlapError overlapInMs windowSizeInMs)
  else
    startTime <- dateTime (at_ items 0) ;;
    endTime <- dateTime (at_ items (-1)) ;;
    let timeSeriesDuration := endTime - startTime in
    let segmentBaseLength := windowSizeInMs - overlapInMs in
    let amountOfWindows := Math_ceil_div timeSeriesDuration segmentBaseLength in
    windowsOf dateTime items startTime segmentBaseLength windowSizeInMs amountOfWindows.

(** An observation as the callers build it: [{ date: new Date(time), value }]. *)
Definition observation (time : Z) (value : float) : JsValue :=
  JsObject [("date", JsDate time); ("value", JsNumber value)].

End GetWindows.

(** ** The least-squares collaborator *)

Module Regression.

Record SimpleLinearRegression : Type := { slope : float; intercept : float }.

Local Open Scope float_scope.

(** Modelled from the spec: the regression is the npm package
    [ml-regression-simple-linear], not part of the repository.  The spec asks of
    it the slope and intercept that minimise the squared residuals, and [NaN]
    for both below two points; this is the closed form of that minimum, summed
    in one pass over the points. *)
Definition regress (x y : list float) : SimpleLinearRegression :=
  let n := toNumber (Z.of_nat (List.length x)) in
  let '(xSum, ySum, xSquared, xY) :=
    fold_left (fun '(xSum, ySum, xSquared, xY) '(xi, yi) =>
                 (xSum + xi, ySum + yi, xSquared + xi * xi, xY + xi * yi))
              (combine x y) (0, 0, 0, 0) in
  let numerator := n * xY - xSum * ySum in
  let slope := numerator / (n * xSquared - xSum * xSum) in
  let intercept := (1 / n) * ySum - slope * (1 / n) * xSum in
  {| slope := slope; intercept := intercept |}.

End Regression.

(** ** src/getLinearRegressionCAGR.mjs *)

Module GetLinearRegressionCAGR.

Import GetTimes EnsureArray GetWindows Regression.

Record GrowthSample : Type := { rate : float; partOfYear : float }.

Definition lengthError (data dates : list JsValue) : Exception :=
  Error [Text "Length of data ("; Int (Z.of_nat (List.length data));
         Text ") must match length of dates ("; Int (Z.of_nat (List.length dates)); Text ")."].

(** [data.map((item, index) => ({ value: item, date: dates[index] }))] *)
Definition mergeData (data dates : list JsValue) : list JsValue :=
  mapi (fun index item => JsObject [("value", item); ("date", nth index dates JsUndefined)]) data.

(** The x axis of a window: years elapsed since its first observation. *)
Definition xValuesOf (window : list JsValue) : Completion (list float) :=
  mapM (fun item =>
          t <- dateTime item ;;
          t0 <- dateTime (at_ window 0) ;;
          Return (toNumber (t - t0) / toNumber yearInMs)%float)
       window.

Definition yValuesOf (window : list JsValue) : Completion (list float) :=
  mapM (fun item => value <- getProp "value" item ;; Return (numberOf value)) window.

(** The callback of [windows.map]: [(intercept + slope) / intercept]. *)
Definition growthRate (window : list JsValue) : Completion float :=
  xValues <- xValuesOf window ;;
  yValues <- yValuesOf window ;;
  let r := regress xValues yValues in
  Return ((intercept r + slope r) / intercept r)%float.

(** [Number.isNaN] *)
Definition Number_isNaN (x : float) : bool := is_nan x.

(** The span the source reads for the sample at [index]:
    [(windows[index].at(-1).date.getTime() - windows[index].at(0).date.getTime()) / yearInMs]. *)
Definition partOfYearAt (windows : list (list JsValue)) (index : nat) : Completion float :=
  let window := nth index windows [] in
  last_ <- dateTime (at_ window (-1)) ;;
  first <- dateTime (at_ window 0) ;;
  Return (toNumber (last_ - first) / toNumber yearInMs)%float.

Definition validGrowthRatesOf (windows : list (list JsValue)) (growthRates : list float)
  : Completion (list GrowthSample) :=
  mapiM (fun index rate =>
           partOfYear <- partOfYearAt windows index ;;
           Return {| rate := rate; partOfYear := partOfYear |})
        (map (fun rate => (rate - 1)%float)
             (filter (fun rate => negb (Number_isNaN rate)) growthRates)).

Definition aggregate (validGrowthRates : list GrowthSample) : float :=
  let amountOfYears :=
    fold_left (fun sum current => (sum + partOfYear current)%float) validGrowthRates 0%float in
  (fold_left (fun sum current => (sum + rate current * partOfYear current)%float)
             validGrowthRates 0%float
   / amountOfYears)%float.

Definition getLinearRegressionCAGR (data dates : JsValue) : Completion float :=
  dataItems <- ensureArray data None ;;
  dateItems <- ensureArray dates None ;;
  if negb (Nat.eqb (List.length dataItems) (List.length dateItems))
  then Throw (lengthError dataItems dateItems)
  else
    let mergedData := mergeData dataItems dateItems in
    windows <- getWindows (JsArray mergedData) yearInMs (Some (yearInMs / 2)) ;;
    growthRates <- mapM growthRate windows ;;
    validGrowthRates <- validGrowthRatesOf windows growthRates ;;
    Return (aggregate validGrowthRates).

End GetLinearRegressionCAGR.

Import GetTimes EnsureArray GetWindows Regression GetLinearRegressionCAGR.

(** ** Vocabulary of the specification *)

Module Spec.

(** An element that the guard of [getWindows] accepts. *)
Definition valid (item : JsValue) : Prop := hasValidValues item = Return true.

(** The timestamp of an observation, in milliseconds. *)
Definition timeOf (item : JsValue) : Z :=
  match dateTime item with
  | Return t => t
  | Throw _ => 0
  end.

Definition valueOf (item : JsValue) : float :=
  match getProp "value" item with
  | Return v => numberOf v
  | Throw _ => nan
  end.

Definition firstTime (items : list JsValue) : Z := timeOf (at_ items 0).
Definition lastTime (items : list JsValue) : Z := timeOf (at_ items (-1)).

(** [T]: the last timestamp minus the first. *)
Definition span (items : list JsValue) : Z := lastTime items - firstTime items.

(** The offset of an observation from the first timestamp of the series. *)
Definition offset (items : list JsValue) (item : JsValue) : Z := timeOf item - firstTime items.

Definition overlapOf (overlapInMs : option Z) : Z :=
  match overlapInMs with
  | Some overlap => overlap
  | None => 0
  end.

(** Membership in the half-open interval [[i * stride, i * stride + windowSize)]. *)
Definition inWindow (items : list JsValue) (stride windowSizeInMs : Z) (index : nat)
    (item : JsValue) : bool :=
  (windowStart stride index <=? offset items item)
  && (offset items item <? windowEnd stride windowSizeInMs index).

(** [sub] keeps some of the elements of [l], in the order of [l]. *)
Inductive subsequence {A : Type} : list A -> list A -> Prop :=
| subsequence_nil : subsequence [] []
| subsequence_skip x sub l : subsequence sub l -> subsequence sub (x :: l)
| subsequence_keep x sub l : subsequence sub l -> subsequence (x :: sub) (x :: l).

(** The windows of a validated series: one filter of the whole series per index. *)
Definition windowsOver (items : list JsValue) (windowSizeInMs overlapInMs : Z)
  : list (list JsValue) :=
  let stride := windowSizeInMs - overlapInMs in
  map (fun index => filter (inWindow items stride windowSizeInMs index) items)
      (seq 0 (Z.to_nat (Math_ceil_div (span items) stride))).

(** Only the engine throws while elements are read: never an [Error] of the
    source's own. *)
Definition engineError (e : Exception) : Prop :=
  match e with
  | TypeError _ _ => True
  | Error _ => False
  end.

Local Open Scope float_scope.

(** Years elapsed between the first observation of [window] and [item]. *)
Definition elapsedYears (window : list JsValue) (item : JsValue) : float :=
  toNumber (timeOf item - timeOf (at_ window 0)) / toNumber yearInMs.

(** The ratio of the regression line one year after the start of the window to
    the line at the start: [(intercept + slope) / intercept], for the least
    squares line of value against elapsed years. *)
Definition ratioOf (window : list JsValue) : float :=
  let line := regress (map (elapsedYears window) window) (map valueOf window) in
  (intercept line + slope line) / intercept line.

(** The windows that the aggregation retains: those whose ratio is a number. *)
Definition retainedWindows (windows : list (list JsValue)) : list (list JsValue) :=
  filter (fun window => negb (Number_isNaN (ratioOf window))) windows.

(** The part of a year between the first and the last observation of a window. *)
Definition fractionOfYear (window : list JsValue) : float :=
  toNumber (timeOf (at_ window (-1)) - timeOf (at_ window 0)) / toNumber yearInMs.

(** The time-weighted average of the specification: each retained window's
    rate weighted by that window's own fraction of a year. *)
Definition timeWeightedAverage (windows : list (list JsValue)) : float :=
  let retained := retainedWindows windows in
  fold_left (fun sum window => sum + (ratioOf window - 1) * fractionOfYear window) retained 0
  / fold_left (fun sum window => sum + fractionOfYear window) retained 0.

(** The sample of the specification for a retained window: its rate, and its
    own fraction of a year. *)
Definition sampleOf (window : list JsValue) : GrowthSample :=
  {| rate := ratioOf window - 1; partOfYear := fractionOfYear window |}.

Local Close Scope float_scope.

End Spec.

Import Spec.

(** ** Series used as examples *)

Module Scenarios.

(** The scenario of the repository's test: six observations, seconds apart. *)

Definition secondsData : list JsValue :=
  map (fun second => observation (1704067200000 + second * 1000) 1%float) [0; 1; 2; 3; 4; 8].





(** Two observations exactly one window size apart. *)
Definition boundaryData : list JsValue :=
  [observation 1704067200000 1%float; observation 1704067203000 1%float].

(** Two observations half a year apart, the value growing from 1 to 1.5: the
    regression line doubles over a year. *)
Definition doublingValues : list JsValue := [JsNumber 1; JsNumber 1.5].
Definition doublingDates : list JsValue :=
  [JsDate 1704067200000; JsDate (1704067200000 + yearInMs / 2)].

Definition doublingData : list JsValue := mergeData doublingValues doublingDates.

(** Three yearly-scale observations: the first alone in its year, the other two
    half a year apart. *)
Definition misalignedValues : list JsValue := [JsNumber 1; JsNumber 1; JsNumber 2].
Definition misalignedDates : list JsValue :=
  [JsDate 1704067200000; JsDate (1704067200000 + yearInMs);
   JsDate (1704067200000 + yearInMs + yearInMs / 2)].
Definition misalignedData : list JsValue := mergeData misalignedValues misalignedDates.

Definition misalignedWindows : list (list JsValue) :=
  let data index := nth index misalignedData JsUndefined in
  [[data 0%nat]; [data 1%nat]; [data 1%nat; data 2%nat]].

(** One observation alone in the first year, then four a quarter of a year
    apart. *)
Definition shiftedValues : list JsValue :=
  [JsNumber 1; JsNumber 1; JsNumber 2; JsNumber 2; JsNumber 6].
Definition shiftedDates : list JsValue :=
  map (fun quarter => JsDate (1704067200000 + quarter * (yearInMs / 4))) [0; 4; 5; 6; 7].
Definition shiftedData : list JsValue := mergeData shiftedValues shiftedDates.

Definition shiftedWindows : list (list JsValue) :=
  let data index := nth index shiftedData JsUndefined in
  [[data 0%nat];
   [data 1%nat; data 2%nat];
   [data 1%nat; data 2%nat; data 3%nat; data 4%nat];
   [data 3%nat; data 4%nat]].

(** Two observations in the first half year and two in the last quarter of the
    second year: no observation falls in the window between. *)
Definition gapValues : list JsValue := [JsNumber 1; JsNumber 2; JsNumber 1; JsNumber 2].
Definition gapDates : list JsValue :=
  [JsDate 1704067200000; JsDate (1704067200000 + yearInMs / 4);
   JsDate (1704067200000 + yearInMs + yearInMs / 2);
   JsDate (1704067200000 + yearInMs + yearInMs / 2 + yearInMs / 4)].

End Scenarios.

Import Scenarios.

(** ** main.mjs *)

Module Main.

Local Open Scope float_scope.

Definition isPositiveZero (x : float) : bool :=
  match classify x with
  | PZero => true
  | _ => false
  end.

Definition isNegativeZero (x : float) : bool :=
  match classify x with
  | NZero => true
  | _ => false
  end.

(** One step of [Math.max]: [NaN] as soon as one argument is [NaN]; +0 counts as
    larger than -0. *)
Definition maxOf (highest number : float) : float :=
  if is_nan highest || is_nan number then nan
  else if isPositiveZero number && isNegativeZero highest then number
  else if highest <? number then number
  else highest.

(** [Math.max(...numbers)]: from -Infinity upwards. *)
Definition Math_max (numbers : list float) : float := fold_left maxOf numbers neg_infinity.

(** One step of [Math.min]: [NaN] as soon as one argument is [NaN]; -0 counts as
    smaller than +0. *)
Definition minOf (lowest number : float) : float :=
  if is_nan lowest || is_nan number then nan
  else if isNegativeZero number && isPositiveZero lowest then number
  else if number <? lowest then number
  else lowest.

(** [Math.min(...numbers)]: from +Infinity downwards. *)
Definition Math_min (numbers : list float) : float := fold_left minOf numbers infinity.

(** [numbers[index]] read as a number: [NaN] for the [undefined] of an index
    outside the array. *)
Definition numberAt (numbers : list JsValue) (index : Z) : float :=
  if (index <? 0)%Z then nan else numberOf (nth (Z.to_nat index) numbers JsUndefined).

(** [array.reduce(callback)] without an initial value: the first element starts
    the fold, and an empty array is a [TypeError]. *)
Definition reduce1 (callback : float -> float -> float) (numbers : list float)
  : Completion float :=
  match numbers with
  | [] => Throw (TypeError "reduce" (JsArray []))
  | first :: rest => Return (fold_left callback rest first)
  end.

Definition getMaxAsSeries (data : JsValue) : Completion (list float) :=
  items <- ensureArray data (Some "number") ;;
  Return (fold_left (fun prev item =>
                       prev ++ [Math_max [last prev neg_infinity; numberOf item]])
                    items []).

Definition getRelativeDrawdownAsSeries (data : JsValue) : Completion (list float) :=
  items <- ensureArray data (Some "number") ;;
  max <- getMaxAsSeries (JsArray items) ;;
  Return (mapi (fun index item => numberOf item / nth index max nan - 1) items).

Definition getMaxRelativeDrawdown (data : JsValue) : Completion float :=
  series <- getRelativeDrawdownAsSeries data ;;
  Return (Math_min series).

Definition getRelativeChangeAsSeries (data : JsValue) : Completion (list float) :=
  items <- ensureArray data (Some "number") ;;
  Return (mapi (fun index item => numberOf item / numberAt items (Z.of_nat index - 1)%Z - 1)
               items).

Definition getAverage (data : JsValue) : Completion float :=
  items <- ensureArray data (Some "number") ;;
  sum <- reduce1 (fun sum item => sum + item) (map numberOf items) ;;
  Return (sum / toNumber (Z.of_nat (List.length items))).

Definition getRelativeTimeInMarket (data : JsValue) : Completion float :=
  changes <- getRelativeChangeAsSeries data ;;
  items <- ensureArray data (Some "number") ;;
  Return (1 - toNumber (Z.of_nat (List.length (filter (fun item => item =? 0) changes)))
              / toNumber (Z.of_nat (List.length items) - 1)%Z).

(** [ensureArray(data) && (data.at(-1) / data.at(0))]: an array is truthy, so
    the quotient is the value. *)
Definition getCumulativeReturn (data : JsValue) : Completion float :=
  items <- ensureArray data (Some "number") ;;
  Return (numberOf (at_ items (-1)) / numberOf (at_ items 0)).

Definition getNormalizedAsSeries (data : JsValue) : Completion (list float) :=
  items <- ensureArray data (Some "number") ;;
  Return (map (fun item => numberOf item / numberAt items 0) items).

Definition getRobustRatio (data dates : JsValue) : Completion float :=
  cagr <- getLinearRegressionCAGR data dates ;;
  drawdown <- getMaxRelativeDrawdown data ;;
  Return (cagr * (1 + drawdown)).

Definition dateParameterError (name : string) (date : JsValue) : Exception :=
  Error [Text "Parameter "; Text name; Text " must be an instance of Date, is "; Value date;
         Text " instead."].

Definition dateOrderError (startDate endDate : JsValue) : Exception :=
  Error [Text "Parameter startDate ("; Value startDate; Text ") must lie before endDate (";
         Value endDate; Text ")."].

Section Power.

(** The exponentiation operator [**] of the host. *)
Variable Math_pow : float -> float -> float.

Definition getCAGR (data startDate endDate : JsValue) : Completion float :=
  if negb (instanceofDate startDate) then Throw (dateParameterError "startDate" startDate)
  else if negb (instanceofDate endDate) then Throw (dateParameterError "endDate" endDate)
  else
    startTime <- getTime startDate ;;
    endTime <- getTime endDate ;;
    if (startTime >=? endTime)%Z then Throw (dateOrderError startDate endDate)
    else
      let diffInYears := toNumber (endTime - startTime)%Z / toNumber yearInMs in
      cumulativeReturn <- getCumulativeReturn data ;;
      Return (Math_pow cumulativeReturn (1 / diffInYears) - 1).

Definition getCalmar (data startDate endDate : JsValue) : Completion float :=
  cagr <- getCAGR data startDate endDate ;;
  series <- getRelativeDrawdownAsSeries data ;;
  Return (cagr / Math_max (map PrimFloat.abs series)).

Definition getSortino (data : JsValue) : Completion float :=
  returns <- getRelativeChangeAsSeries data ;;
  let downs := filter (fun item => item <? 0) (tl returns) in
  if Nat.eqb (List.length downs) 0%nat then Return 0
  else
    downsideSum <- reduce1 (fun sum item => sum + item)
                           (map (fun item => Math_pow item 2) downs) ;;
    let downside := PrimFloat.sqrt (downsideSum / toNumber (Z.of_nat (List.length downs))) in
    changes <- getRelativeChangeAsSeries data ;;
    average <- getAverage (JsArray (map JsNumber (tl changes))) ;;
    Return (average / downside).

End Power.

End Main.

Import Main.

(** ** Vocabulary for the further properties *)

Module MoreSpec.

(** The observation that [getLinearRegressionCAGR] builds from a value and its
    date: [{ value: item, date: dates[index] }]. *)
Definition mergedObject (pair : JsValue * JsValue) : JsValue :=
  JsObject [("value", fst pair); ("date", snd pair)].

(** What the guard of [getWindows] tests on such an observation. *)
Definition validPair (pair : JsValue * JsValue) : bool :=
  String.eqb (typeof (fst pair)) "number" && instanceofDate (snd pair).

Definition notNaN (x : float) : Prop := is_nan x = false.

(** The reduction of [getMaxAsSeries] over the numbers themselves. *)
Definition runningMax (xs : list float) : list float :=
  fold_left (fun prev x => prev ++ [Math_max [last prev neg_infinity; x]]) xs [].

End MoreSpec.

Import MoreSpec.

(** ** Further series used as examples *)

Module MoreScenarios.

(** Four observations over 183 days, as in the repository's test of a window
    with one entry: the second window holds the last observation alone. *)
Definition partialValues : list JsValue := [JsNumber 1; JsNumber 1.5; JsNumber 2; JsNumber 2].
Definition partialDates : list JsValue :=
  map (fun day => JsDate (1704067200000 + day * dayInMs)) [0; 67; 166; 183].
Definition partialData : list JsValue := mergeData partialValues partialDates.

(** The series of the repository's test of the time in market. *)
Definition marketValues : list float := [5; 3; 3; 4; 4; 5]%float.
Definition marketData : JsValue := JsArray (map JsNumber marketValues).

(** A series that halves and recovers. *)
Definition recoveringValues : list float := [4; 2; 2; 3; 3; 4]%float.
Definition recoveringData : JsValue := JsArray (map JsNumber recoveringValues).
Definition recoveringDrawdowns : list float := [0; -0.5; -0.5; -0.25; -0.25; 0]%float.

End MoreScenarios.

Import MoreScenarios.

(** ** Completions of the list combinators *)

Section Combinators.

Context {A B : Type}.

Lemma mapM_pure (f : A -> Completion B) (g : A -> B) (l : list A) :
  (forall x, In x l -> f x = Return (g x)) -> mapM f l = Return (map g l).
Proof.
  induction l as [|x rest IH]; intros Hf; simpl.
  - reflexivity.
  - rewrite (Hf x (or_introl eq_refl)). simpl.
    rewrite IH by (intros y Hy; apply Hf; right; exact Hy).
    reflexivity.
Qed.

Lemma filterM_pure (p : A -> Completion bool) (q : A -> bool) (l : list A) :
  (forall x, In x l -> p x = Return (q x)) -> filterM p l = Return (filter q l).
Proof.
  induction l as [|x rest IH]; intros Hp; simpl.
  - reflexivity.
  - rewrite (Hp x (or_introl eq_refl)). simpl.
    rewrite IH by (intros y Hy; apply Hp; right; exact Hy).
    reflexivity.
Qed.

Lemma every_pure (p : A -> Completion bool) (l : list A) :
  Forall (fun x => p x = Return true) l -> every p l = Return true.
Proof.
  induction 1 as [|x rest Hx _ IH]; simpl.
  - reflexivity.
  - rewrite Hx. simpl. exact IH.
Qed.

Lemma subsequence_filter (q : A -> bool) (l : list A) : subsequence (filter q l) l.
Proof.
  induction l as [|x rest IH]; simpl.
  - constructor.
  - destruct (q x); constructor; exact IH.
Qed.

Lemma subsequence_In (sub l : list A) : subsequence sub l -> forall x, In x sub -> In x l.
Proof.
  induction 1 as [|x sub l _ IH|x sub l _ IH]; intros y Hy; simpl in *.
  - exact Hy.
  - right. apply IH. exact Hy.
  - destruct Hy as [Hy|Hy]; [left; exact Hy|right; apply IH; exact Hy].
Qed.

End Combinators.

(** ** The ceiling of a quotient *)

Lemma Math_ceil_div_opp (a b : Z) : 0 < b -> Math_ceil_div a b = - ((- a) / b).
Proof.
  intros Hb. unfold Math_ceil_div, Qceiling, Qfloor.
  destruct b as [|p|p]; try lia.
  unfold Qdiv, Qinv, Qmult, Qopp, inject_Z. simpl Qnum. simpl Qden.
  f_equal. f_equal; lia.
Qed.

Lemma Math_ceil_div_bounds (a b : Z) :
  0 < b -> b * (Math_ceil_div a b - 1) < a <= b * Math_ceil_div a b.
Proof.
  intros Hb. rewrite (Math_ceil_div_opp a b Hb).
  pose proof (Z.div_mod (- a) b ltac:(lia)) as Hdm.
  pose proof (Z.mod_pos_bound (- a) b Hb) as Hm.
  nia.
Qed.

Lemma Math_ceil_div_pos (a b : Z) : 0 < b -> 0 < a -> 0 < Math_ceil_div a b.
Proof.
  intros Hb Ha. pose proof (Math_ceil_div_bounds a b Hb). nia.
Qed.


Lemma Math_ceil_div_unique (a b n : Z) :
  0 < b -> b * (n - 1) < a <= b * n -> n = Math_ceil_div a b.
Proof.
  intros Hb Hn. pose proof (Math_ceil_div_bounds a b Hb). nia.
Qed.

(** ** getWindows on a validated, non-empty series *)

Lemma valid_dateTime (item : JsValue) : valid item -> dateTime item = Return (timeOf item).
Proof.
  unfold valid, timeOf, hasValidValues, dateTime.
  destruct item as [| | | | | |props|]; simpl; try discriminate.
  destruct (typeof (lookup "value" props) =? "number")%string; simpl; try discriminate.
  destruct (lookup "date" props); simpl; try discriminate.
  reflexivity.
Qed.

Lemma valid_value (item : JsValue) :
  valid item -> exists v, getProp "value" item = Return (JsNumber v).
Proof.
  unfold valid, hasValidValues.
  destruct item as [| | | | | |props|]; simpl; try discriminate.
  destruct (lookup "value" props) as [| | |v| | | |]; simpl; try discriminate.
  intros _. exists v. reflexivity.
Qed.

Lemma observation_valid (time : Z) (value : float) : valid (observation time value).
Proof. reflexivity. Qed.

Lemma at_first_In (items : list JsValue) : items <> [] -> In (at_ items 0) items.
Proof.
  destruct items as [|x rest]; [congruence|]. intros _. left. reflexivity.
Qed.

Lemma at_last_In (items : list JsValue) : items <> [] -> In (at_ items (-1)) items.
Proof.
  intros Hne. unfold at_.
  assert (Hlen : (0 < List.length items)%nat)
    by (destruct items; [congruence|simpl; lia]).
  replace (-1 <? 0) with true by reflexivity.
  destruct (Z.ltb_spec (Z.of_nat (List.length items) + -1) 0) as [Hk|Hk]; [lia|].
  apply nth_In. lia.
Qed.

Lemma at_first_cons (x : JsValue) (rest : list JsValue) : at_ (x :: rest) 0 = x.
Proof. reflexivity. Qed.


Lemma getWindows_valid (items : list JsValue) (windowSizeInMs : Z) (overlapInMs : option Z) :
  Forall valid items -> items <> [] ->
  0 < windowSizeInMs -> overlapOf overlapInMs < windowSizeInMs ->
  getWindows (JsArray items) windowSizeInMs overlapInMs
  = Return (windowsOver items windowSizeInMs (overlapOf overlapInMs)).
Proof.
  intros Hvalid Hne Hsize Hoverlap.
  assert (Hall : forall item, In item items -> dateTime item = Return (timeOf item)).
  { intros item Hin. apply valid_dateTime. rewrite Forall_forall in Hvalid. auto. }
  unfold getWindows. fold (overlapOf overlapInMs).
  rewrite (every_pure hasValidValues items Hvalid). simpl.
  destruct (Z.leb_spec windowSizeInMs 0) as [Hle|_]; [lia|].
  rewrite Z.geb_leb.
  destruct (Z.leb_spec windowSizeInMs (overlapOf overlapInMs)) as [Hge|_]; [lia|].
  rewrite (Hall _ (at_first_In items Hne)). simpl.
  rewrite (Hall _ (at_last_In items Hne)). simpl.
  unfold windowsOf, windowsOver.
  apply mapM_pure. intros index _.
  apply filterM_pure. intros item Hin.
  rewrite (Hall item Hin). simpl.
  unfold inWindow, offset, firstTime. rewrite Z.geb_leb.
  destruct (windowStart _ index <=? timeOf item - timeOf (at_ items 0)); reflexivity.
Qed.

Lemma windowsOver_length (items : list JsValue) (windowSizeInMs overlapInMs : Z) :
  List.length (windowsOver items windowSizeInMs overlapInMs)
  = Z.to_nat (Math_ceil_div (span items) (windowSizeInMs - overlapInMs)).
Proof. unfold windowsOver. rewrite length_map, length_seq. reflexivity. Qed.





(** ** How many windows; where the last one ends *)




(** C5. With the default overlap and a span that is a multiple of the window
    size, the last window ends at the offset of the last observation, not
    after it, and the last observation is in no window. *)
Theorem getWindows_last_observation_uncovered :
  Forall valid boundaryData
  /\ getWindows (JsArray boundaryData) 3000 None
     = Return [[observation 1704067200000 1%float]]
  /\ offset boundaryData (at_ boundaryData (-1)) = 3000
  /\ windowEnd (3000 - 0) 3000 0 = 3000
  /\ ~ (offset boundaryData (at_ boundaryData (-1)) < windowEnd (3000 - 0) 3000 0)
  /\ ~ In (at_ boundaryData (-1)) [observation 1704067200000 1%float].
Proof.
  split; [repeat constructor|].
  split; [reflexivity|].
  split; [reflexivity|].
  split; [reflexivity|].
  split.
  - vm_compute. intros H. discriminate H.
  - simpl. unfold observation. intros [H|[]]. discriminate H.
Qed.

(** Where the overlap is positive the last window does reach past the last
    observation. *)
Lemma getWindows_last_window_covers
    (items : list JsValue) (windowSizeInMs overlapInMs : Z) :
  0 < overlapInMs < windowSizeInMs -> 0 < span items ->
  let stride := windowSizeInMs - overlapInMs in
  let amountOfWindows := List.length (windowsOver items windowSizeInMs overlapInMs) in
  (1 <= amountOfWindows)%nat
  /\ span items < windowEnd stride windowSizeInMs (amountOfWindows - 1).
Proof.
  intros Hoverlap Hspan stride amountOfWindows.
  unfold amountOfWindows. rewrite windowsOver_length. fold stride.
  assert (Hstride : 0 < stride) by (unfold stride; lia).
  pose proof (Math_ceil_div_pos (span items) stride Hstride Hspan) as Hpos.
  pose proof (Math_ceil_div_bounds (span items) stride Hstride) as Hb.
  split; [lia|].
  unfold windowEnd, windowStart.
  rewrite Nat2Z.inj_sub by lia. rewrite Z2Nat.id by lia.
  unfold stride in *. simpl Z.of_nat. nia.
Qed.

(** ** The guard of getWindows *)

(** C9. Given an empty series, [getWindows] passes its three checks and then
    throws the engine's [TypeError] for reading [date] from [undefined], the
    value of [data.at(0)]; it does not return an empty list of windows.
    [getLinearRegressionCAGR] on two empty arrays passes the length check and
    stops on the same error, not on a [NaN]. *)
Theorem getWindows_empty_series_fails :
  (forall (windowSizeInMs : Z) (overlapInMs : option Z),
      0 < windowSizeInMs -> overlapOf overlapInMs < windowSizeInMs ->
      Forall valid []
      /\ getWindows (JsArray []) windowSizeInMs overlapInMs
         = Throw (TypeError "date" JsUndefined))
  /\ at_ [] 0 = JsUndefined
  /\ getLinearRegressionCAGR (JsArray []) (JsArray [])
     = Throw (TypeError "date" JsUndefined).
Proof.
  split; [|split; reflexivity].
  intros windowSizeInMs overlapInMs Hsize Hoverlap.
  split; [constructor|].
  unfold getWindows. fold (overlapOf overlapInMs). simpl.
  destruct (Z.leb_spec windowSizeInMs 0) as [Hle|_]; [lia|].
  rewrite Z.geb_leb.
  destruct (Z.leb_spec windowSizeInMs (overlapOf overlapInMs)) as [Hge|_]; [lia|].
  reflexivity.
Qed.

Lemma getWindows_empty_series_fails_witness :
  Forall valid []
  /\ getWindows (JsArray []) 3000 (Some 1500) = Throw (TypeError "date" JsUndefined).
Proof.
  apply (proj1 getWindows_empty_series_fails 3000 (Some 1500)); reflexivity.
Defined.

Lemma dateTime_throws (item : JsValue) (e : Exception) :
  dateTime item = Throw e -> engineError e.
Proof.
  unfold dateTime, getProp.
  destruct item as [| | | | | |props|]; simpl; intros H;
    try (injection H as <-; exact I).
  destruct (lookup "date" props); simpl in H; try discriminate H;
    injection H as <-; exact I.
Qed.

Lemma hasValidValues_throws (item : JsValue) (e : Exception) :
  hasValidValues item = Throw e -> engineError e.
Proof.
  unfold hasValidValues, getProp.
  destruct item as [| | | | | |props|]; simpl; intros H;
    try discriminate H; try (injection H as <-; exact I).
  destruct (typeof (lookup "value" props) =? "number")%string; discriminate H.
Qed.

Section Throws.

Context {A : Type} (P : Exception -> Prop).

Lemma every_throws (p : A -> Completion bool) (l : list A) (e : Exception) :
  (forall x e', p x = Throw e' -> P e') -> every p l = Throw e -> P e.
Proof.
  intros Hp. induction l as [|x rest IH]; simpl; [discriminate|].
  destruct (p x) as [[|]|e'] eqn:Hx; simpl.
  - exact IH.
  - discriminate.
  - intros H. injection H as <-. exact (Hp x e' Hx).
Qed.

Lemma filterM_throws (p : A -> Completion bool) (l : list A) (e : Exception) :
  (forall x e', p x = Throw e' -> P e') -> filterM p l = Throw e -> P e.
Proof.
  intros Hp. induction l as [|x rest IH]; simpl; [discriminate|].
  destruct (p x) as [keep|e'] eqn:Hx; simpl.
  - destruct (filterM p rest) as [kept|e'']; simpl; [discriminate|].
    intros H. injection H as <-. apply IH. reflexivity.
  - intros H. injection H as <-. exact (Hp x e' Hx).
Qed.

Lemma mapM_throws {B : Type} (f : A -> Completion B) (l : list A) (e : Exception) :
  (forall x e', f x = Throw e' -> P e') -> mapM f l = Throw e -> P e.
Proof.
  intros Hf. induction l as [|x rest IH]; simpl; [discriminate|].
  destruct (f x) as [y|e'] eqn:Hx; simpl.
  - destruct (mapM f rest) as [ys|e'']; simpl; [discriminate|].
    intros H. injection H as <-. apply IH. reflexivity.
  - intros H. injection H as <-. exact (Hf x e' Hx).
Qed.

End Throws.

Lemma windowsOf_throws (items : list JsValue)
    (startTime segmentBaseLength windowSizeInMs amountOfWindows : Z) (e : Exception) :
  windowsOf dateTime items startTime segmentBaseLength windowSizeInMs amountOfWindows = Throw e ->
  engineError e.
Proof.
  unfold windowsOf. apply mapM_throws. intros index e1. apply filterM_throws.
  intros item e2.
  destruct (dateTime item) as [t|e3] eqn:Ht; simpl.
  - destruct (t - startTime >=? windowStart segmentBaseLength index); simpl; discriminate.
  - intros H. injection H as <-. exact (dateTime_throws item e3 Ht).
Qed.

(** The checks of [getWindows], in the order the source makes them. *)
Lemma getWindows_not_array (data : JsValue) (windowSizeInMs : Z) (overlapInMs : option Z) :
  (forall items, data <> JsArray items) ->
  getWindows data windowSizeInMs overlapInMs = Throw (dataError data).
Proof.
  intros Hdata. destruct data; try reflexivity. exfalso. exact (Hdata _ eq_refl).
Qed.

Lemma getWindows_invalid_element (items : list JsValue) (windowSizeInMs : Z)
    (overlapInMs : option Z) :
  every hasValidValues items = Return false ->
  getWindows (JsArray items) windowSizeInMs overlapInMs = Throw (dataError (JsArray items)).
Proof. intros Hevery. unfold getWindows. rewrite Hevery. reflexivity. Qed.

Lemma getWindows_window_size (items : list JsValue) (windowSizeInMs : Z)
    (overlapInMs : option Z) :
  every hasValidValues items = Return true -> windowSizeInMs <= 0 ->
  getWindows (JsArray items) windowSizeInMs overlapInMs = Throw (windowSizeError windowSizeInMs).
Proof.
  intros Hevery Hsize. unfold getWindows. rewrite Hevery. simpl.
  destruct (Z.leb_spec windowSizeInMs 0); [reflexivity|lia].
Qed.

Lemma getWindows_overlap (items : list JsValue) (windowSizeInMs : Z) (overlapInMs : option Z) :
  every hasValidValues items = Return true -> 0 < windowSizeInMs ->
  windowSizeInMs <= overlapOf overlapInMs ->
  getWindows (JsArray items) windowSizeInMs overlapInMs
  = Throw (overlapError (overlapOf overlapInMs) windowSizeInMs).
Proof.
  intros Hevery Hsize Hoverlap. unfold getWindows. fold (overlapOf overlapInMs).
  rewrite Hevery. simpl.
  destruct (Z.leb_spec windowSizeInMs 0); [lia|].
  rewrite Z.geb_leb.
  destruct (Z.leb_spec windowSizeInMs (overlapOf overlapInMs)); [reflexivity|lia].
Qed.

Lemma getWindows_default_overlap (data : JsValue) (windowSizeInMs : Z) :
  getWindows data windowSizeInMs None = getWindows data windowSizeInMs (Some 0).
Proof. reflexivity. Qed.

(** An [Error] from [getWindows] is one of its three, thrown for its own
    condition. *)
Lemma getWindows_errors (data : JsValue) (windowSizeInMs : Z) (overlapInMs : option Z)
    (message : list Part) :
  getWindows data windowSizeInMs overlapInMs = Throw (Error message) ->
  (Error message = dataError data
   /\ ((forall items, data <> JsArray items)
       \/ exists items, data = JsArray items /\ every hasValidValues items = Return false))
  \/ (Error message = windowSizeError windowSizeInMs /\ windowSizeInMs <= 0)
  \/ (Error message = overlapError (overlapOf overlapInMs) windowSizeInMs
      /\ windowSizeInMs <= overlapOf overlapInMs).
Proof.
  destruct data as [| | | | | | |items];
    try (intros H; left; split; [injection H as <-; reflexivity|left; discriminate]).
  unfold getWindows. fold (overlapOf overlapInMs).
  destruct (every hasValidValues items) as [[|]|e] eqn:Hevery; simpl.
  - destruct (Z.leb_spec windowSizeInMs 0) as [Hle|Hlt].
    + intros H. right. left. split; [injection H as <-; reflexivity|exact Hle].
    + rewrite Z.geb_leb.
      destruct (Z.leb_spec windowSizeInMs (overlapOf overlapInMs)) as [Hge|Hgt].
      * intros H. right. right. split; [injection H as <-; reflexivity|exact Hge].
      * intros H. exfalso.
        destruct (dateTime (at_ items 0)) as [startTime|e1] eqn:H1; simpl in H.
        -- destruct (dateTime (at_ items (-1))) as [endTime|e2] eqn:H2; simpl in H.
           ++ exact (windowsOf_throws _ _ _ _ _ _ H).
           ++ injection H as ->. exact (dateTime_throws _ _ H2).
        -- injection H as ->. exact (dateTime_throws _ _ H1).
  - intros H. left. split; [injection H as <-; reflexivity|].
    right. exists items. split; [reflexivity|exact Hevery].
  - intros H. exfalso. injection H as ->.
    exact (every_throws engineError hasValidValues items _ hasValidValues_throws Hevery).
Qed.

(** C8. An empty array passes every check of [getWindows], with the default
    overlap as with a given one, and the call still does not return: it throws
    a [TypeError], which is none of the three validation errors. *)
Theorem getWindows_valid_arguments_throw :
  every hasValidValues [] = Return true
  /\ 0 < 3000
  /\ overlapOf None < 3000
  /\ getWindows (JsArray []) 3000 None = Throw (TypeError "date" JsUndefined)
  /\ getWindows (JsArray []) 3000 (Some 1500) = Throw (TypeError "date" JsUndefined)
  /\ (forall windows, getWindows (JsArray []) 3000 None <> Return windows).
Proof.
  repeat split; try reflexivity. intros windows H. discriminate H.
Qed.

(** A [null] element is read before it is tested: the guard itself throws, and
    not its validation error. *)
Lemma getWindows_null_element_throws :
  getWindows (JsArray [JsNull]) 3000 None = Throw (TypeError "value" JsNull).
Proof. reflexivity. Qed.

(** ** Windows share the observations of the series *)

Lemma filterM_subsequence {A : Type} (p : A -> Completion bool) (l kept : list A) :
  filterM p l = Return kept -> subsequence kept l.
Proof.
  revert kept. induction l as [|x rest IH]; simpl; intros kept H.
  - injection H as <-. constructor.
  - destruct (p x) as [keep|e]; simpl in H; [|discriminate H].
    destruct (filterM p rest) as [kept'|e]; simpl in H; [|discriminate H].
    injection H as <-.
    destruct keep; constructor; apply IH; reflexivity.
Qed.

Lemma mapM_Forall {A B : Type} (P : B -> Prop) (f : A -> Completion B) (l : list A)
    (ys : list B) :
  (forall x y, f x = Return y -> P y) -> mapM f l = Return ys -> Forall P ys.
Proof.
  intros Hf. revert ys. induction l as [|x rest IH]; simpl; intros ys H.
  - injection H as <-. constructor.
  - destruct (f x) as [y|e] eqn:Hx; simpl in H; [|discriminate H].
    destruct (mapM f rest) as [ys'|e]; simpl in H; [|discriminate H].
    injection H as <-. constructor; [exact (Hf x y Hx)|apply IH; reflexivity].
Qed.

Lemma windowsOf_subsequences {Item : Type} (time : Item -> Completion Z) (data : list Item)
    (startTime segmentBaseLength windowSizeInMs amountOfWindows : Z)
    (windows : list (list Item)) :
  windowsOf time data startTime segmentBaseLength windowSizeInMs amountOfWindows
  = Return windows ->
  Forall (fun window => subsequence window data) windows.
Proof.
  unfold windowsOf. apply mapM_Forall. intros index window.
  apply filterM_subsequence.
Qed.

Lemma every_true_Forall {A : Type} (p : A -> Completion bool) (l : list A) :
  every p l = Return true -> Forall (fun x => p x = Return true) l.
Proof.
  induction l as [|x rest IH]; simpl; intros H; [constructor|].
  destruct (p x) as [[|]|e] eqn:Hx; simpl in H; try discriminate H.
  constructor; [exact Hx|exact (IH H)].
Qed.

Lemma getWindows_subsequences (data : JsValue) (windowSizeInMs : Z) (overlapInMs : option Z)
    (windows : list (list JsValue)) :
  getWindows data windowSizeInMs overlapInMs = Return windows ->
  exists items,
    data = JsArray items
    /\ Forall valid items
    /\ Forall (fun window => subsequence window items) windows.
Proof.
  destruct data as [| | | | | | |items]; try discriminate.
  intros H. exists items. split; [reflexivity|].
  unfold getWindows in H.
  destruct (every hasValidValues items) as [[|]|e] eqn:Hevery; simpl in H; try discriminate H.
  destruct (windowSizeInMs <=? 0); [discriminate H|].
  destruct (_ >=? windowSizeInMs); [discriminate H|].
  destruct (dateTime (at_ items 0)) as [startTime|e]; simpl in H; [|discriminate H].
  destruct (dateTime (at_ items (-1))) as [endTime|e]; simpl in H; [|discriminate H].
  split; [exact (every_true_Forall _ _ Hevery)|].
  exact (windowsOf_subsequences _ _ _ _ _ _ _ H).
Qed.



(** ** The growth rate of a window *)

Lemma mul_nan_l (x : float) : (nan * x)%float = nan.
Proof. apply Prim2SF_inj. rewrite FloatAxioms.mul_spec. reflexivity. Qed.

Lemma sub_nan_r (x : float) : (x - nan)%float = nan.
Proof.
  apply Prim2SF_inj. rewrite FloatAxioms.sub_spec.
  change (Prim2SF nan) with S754_nan. destruct (Prim2SF x); reflexivity.
Qed.

(** One point at x = 0: numerator and denominator of the slope both vanish. *)
Lemma single_point_slope (y : float) :
  ((1 * (0 + 0 * y) - (0 + 0) * (0 + y)) / 0)%float = nan.
Proof.
  apply Prim2SF_inj.
  rewrite FloatAxioms.div_spec, FloatAxioms.sub_spec, !FloatAxioms.mul_spec,
    !FloatAxioms.add_spec, FloatAxioms.mul_spec.
  change (Prim2SF 0) with (S754_zero false).
  change (Prim2SF 1) with (S754_finite false 4503599627370496 (-52)).
  change (Prim2SF nan) with S754_nan.
  destruct (Prim2SF y) as [s|s| |s m e]; try destruct s; reflexivity.
Qed.

Lemma regress_single_point (y : float) :
  let line := regress [0%float] [y] in
  ((intercept line + slope line) / intercept line)%float = nan.
Proof.
  unfold regress. simpl.
  change (toNumber 1) with 1%float.
  rewrite single_point_slope.
  rewrite !mul_nan_l, sub_nan_r. reflexivity.
Qed.

Lemma ratioOf_short (window : list JsValue) :
  (List.length window < 2)%nat -> ratioOf window = nan.
Proof.
  destruct window as [|item [|item' rest]]; simpl; intros Hlen; try lia.
  - reflexivity.
  - unfold ratioOf, elapsedYears. simpl map. rewrite at_first_cons, Z.sub_diag.
    change (toNumber 0 / toNumber yearInMs)%float with 0%float.
    apply regress_single_point.
Qed.

Lemma xValuesOf_valid (window : list JsValue) :
  Forall valid window -> xValuesOf window = Return (map (elapsedYears window) window).
Proof.
  intros Hvalid. unfold xValuesOf. apply mapM_pure. intros item Hin.
  rewrite Forall_forall in Hvalid.
  rewrite (valid_dateTime item (Hvalid item Hin)). simpl.
  assert (Hne : window <> []) by (intros ->; exact Hin).
  rewrite (valid_dateTime _ (Hvalid _ (at_first_In window Hne))). reflexivity.
Qed.

Lemma yValuesOf_valid (window : list JsValue) :
  Forall valid window -> yValuesOf window = Return (map valueOf window).
Proof.
  intros Hvalid. unfold yValuesOf. apply mapM_pure. intros item Hin.
  rewrite Forall_forall in Hvalid.
  destruct (valid_value item (Hvalid item Hin)) as [v Hv].
  unfold valueOf. rewrite Hv. reflexivity.
Qed.

Lemma growthRate_valid (window : list JsValue) :
  Forall valid window -> growthRate window = Return (ratioOf window).
Proof.
  intros Hvalid. unfold growthRate.
  rewrite (xValuesOf_valid window Hvalid), (yValuesOf_valid window Hvalid). reflexivity.
Qed.

Lemma subsequence_Forall {A : Type} (P : A -> Prop) (sub l : list A) :
  subsequence sub l -> Forall P l -> Forall P sub.
Proof.
  intros Hsub Hl. rewrite Forall_forall in *. intros x Hx.
  apply Hl. exact (subsequence_In sub l Hsub x Hx).
Qed.

Lemma getWindows_windows_valid (data : JsValue) (windowSizeInMs : Z) (overlapInMs : option Z)
    (windows : list (list JsValue)) :
  getWindows data windowSizeInMs overlapInMs = Return windows ->
  Forall (Forall valid) windows.
Proof.
  intros H. destruct (getWindows_subsequences _ _ _ _ H) as (items & _ & Hvalid & Hsub).
  rewrite Forall_forall in *. intros window Hwindow.
  apply (subsequence_Forall valid window items (Hsub window Hwindow)).
  rewrite Forall_forall. exact Hvalid.
Qed.

Lemma growthRates_valid (windows : list (list JsValue)) :
  Forall (Forall valid) windows -> mapM growthRate windows = Return (map ratioOf windows).
Proof.
  intros Hvalid. apply mapM_pure. intros window Hin.
  rewrite Forall_forall in Hvalid. exact (growthRate_valid window (Hvalid window Hin)).
Qed.


Lemma filter_map_commute {A B : Type} (f : A -> B) (p : B -> bool) (l : list A) :
  filter p (map f l) = map f (filter (fun x => p (f x)) l).
Proof.
  induction l as [|x rest IH]; simpl; [reflexivity|].
  destruct (p (f x)); simpl; rewrite IH; reflexivity.
Qed.




(** The line through (0, 1) and (1/2, 1.5) has slope 1 and intercept 1: the
    ratio is 2, the rate 1, over half a year. *)
Lemma doubling_rate :
  regress [0; 0.5]%float [1; 1.5]%float = {| slope := 1; intercept := 1 |}
  /\ ratioOf doublingData = 2%float
  /\ fractionOfYear doublingData = 0.5%float
  /\ getLinearRegressionCAGR (JsArray doublingValues) (JsArray doublingDates) = Return 1%float.
Proof. repeat split; vm_compute; reflexivity. Qed.

(** ** The estimate on degenerate and mismatched input *)

Lemma windowsOver_single (item : JsValue) (windowSizeInMs overlapInMs : Z) :
  0 < windowSizeInMs - overlapInMs ->
  windowsOver [item] windowSizeInMs overlapInMs = [].
Proof.
  intros Hstride. unfold windowsOver, span, lastTime, firstTime.
  change (at_ [item] (-1)) with item. change (at_ [item] 0) with item.
  rewrite Z.sub_diag.
  replace (Math_ceil_div 0 (windowSizeInMs - overlapInMs)) with 0; [reflexivity|].
  apply Math_ceil_div_unique; lia.
Qed.

(** C6. One value and one timestamp: no window is built, both sums of the
    aggregation are 0, and the estimate is the returned value 0 / 0 = [NaN]. *)
Theorem cagr_single_observation (value : float) (time : Z) :
  getLinearRegressionCAGR (JsArray [JsNumber value]) (JsArray [JsDate time]) = Return nan
  /\ getWindows (JsArray (mergeData [JsNumber value] [JsDate time])) yearInMs
       (Some (yearInMs / 2)) = Return []
  /\ aggregate [] = (0 / 0)%float
  /\ Number_isNaN nan = true.
Proof.
  assert (Hwindows :
    getWindows (JsArray (mergeData [JsNumber value] [JsDate time])) yearInMs
      (Some (yearInMs / 2)) = Return []).
  { unfold mergeData, mapi. simpl mapi_from. rewrite getWindows_valid.
    - rewrite windowsOver_single; reflexivity.
    - repeat constructor.
    - discriminate.
    - reflexivity.
    - reflexivity. }
  split; [|split; [exact Hwindows|split; reflexivity]].
  unfold getLinearRegressionCAGR. simpl ensureArray. simpl bind.
  simpl negb. cbv iota. rewrite Hwindows. reflexivity.
Qed.

(** C7. Arrays of different lengths: the estimator throws the [Error] whose
    message interpolates both lengths, whatever the arrays hold; so it does
    for no value against one date. *)
Theorem cagr_length_mismatch :
  (forall data dates : list JsValue,
      List.length data <> List.length dates ->
      getLinearRegressionCAGR (JsArray data) (JsArray dates)
      = Throw (Error [Text "Length of data ("; Int (Z.of_nat (List.length data));
                      Text ") must match length of dates (";
                      Int (Z.of_nat (List.length dates)); Text ")."]))
  /\ (forall someDate : JsValue,
        getLinearRegressionCAGR (JsArray []) (JsArray [someDate])
        = Throw (Error [Text "Length of data ("; Int 0;
                        Text ") must match length of dates ("; Int 1; Text ")."])).
Proof.
  split; [|reflexivity].
  intros data dates Hlength. unfold getLinearRegressionCAGR. simpl ensureArray. simpl bind.
  destruct (Nat.eqb_spec (List.length data) (List.length dates)) as [Heq|_]; [contradiction|].
  reflexivity.
Qed.

Lemma cagr_length_mismatch_witness :
  getLinearRegressionCAGR (JsArray [JsNumber 1; JsNumber 2]) (JsArray [JsNumber 2])
  = Throw (Error [Text "Length of data ("; Int 2;
                  Text ") must match length of dates ("; Int 1; Text ")."]).
Proof.
  apply (proj1 cagr_length_mismatch [JsNumber 1; JsNumber 2] [JsNumber 2]).
  discriminate.
Defined.

(** ** The weights of the aggregation *)

(** C1. Three observations at 0, 1 and 1.5 years with values 1, 1, 2 give the
    windows {0}, {1}, {1,2}.  Only the third is retained, with rate 2 over half
    a year, so the time-weighted average over the retained windows is 2.  The
    source pairs that rate with the span of [windows[0]], which is 0, and
    returns 0 / 0 = [NaN]. *)
Theorem cagr_weight_from_other_window :
  getWindows (JsArray misalignedData) yearInMs (Some (yearInMs / 2)) = Return misalignedWindows
  /\ map ratioOf misalignedWindows = [nan; nan; 3%float]
  /\ retainedWindows misalignedWindows = [nth 2 misalignedWindows []]
  /\ fractionOfYear (nth 2 misalignedWindows []) = 0.5%float
  /\ timeWeightedAverage misalignedWindows = 2%float
  /\ validGrowthRatesOf misalignedWindows (map ratioOf misalignedWindows)
     = Return [{| rate := 2; partOfYear := 0 |}]
  /\ partOfYearAt misalignedWindows 0 = Return (fractionOfYear (nth 0 misalignedWindows []))
  /\ getLinearRegressionCAGR (JsArray misalignedValues) (JsArray misalignedDates) = Return nan
  /\ Number_isNaN 2 = false.
Proof. repeat split; vm_compute; reflexivity. Qed.

(** With one discarded window in front, each retained rate is weighted with the
    span of the window before its own: rates 4, 12, 8 get the weights 0, 1/4, 3/4
    in place of 1/4, 3/4, 1/4, and the estimate is 9 where the time-weighted
    average is 12 / 1.25. *)
Lemma cagr_weights_shifted :
  getWindows (JsArray shiftedData) yearInMs (Some (yearInMs / 2)) = Return shiftedWindows
  /\ map ratioOf shiftedWindows = [nan; 5; 13; 9]%float
  /\ map fractionOfYear shiftedWindows = [0; 0.25; 0.75; 0.25]%float
  /\ validGrowthRatesOf shiftedWindows (map ratioOf shiftedWindows)
     = Return [{| rate := 4; partOfYear := 0 |}; {| rate := 12; partOfYear := 0.25 |};
               {| rate := 8; partOfYear := 0.75 |}]
  /\ getLinearRegressionCAGR (JsArray shiftedValues) (JsArray shiftedDates) = Return 9%float
  /\ timeWeightedAverage shiftedWindows = (12 / 1.25)%float
  /\ (9 =? 12 / 1.25)%float = false.
Proof. repeat split; vm_compute; reflexivity. Qed.

(** With an empty window between two retained ones, reading the span of
    [windows[1]] for the second retained rate throws. *)
Lemma cagr_weight_from_empty_window :
  (exists first third fourth,
      getWindows (JsArray (mergeData gapValues gapDates)) yearInMs (Some (yearInMs / 2))
      = Return [first; []; third; fourth])
  /\ getLinearRegressionCAGR (JsArray gapValues) (JsArray gapDates)
     = Throw (TypeError "date" JsUndefined).
Proof.
  split; [do 3 eexists|]; vm_compute; reflexivity.
Qed.

(** *** Where the source agrees with the time-weighted average

    The sample at position [index] of the filtered rates reads the span of
    [windows[index]].  The two are the same window as long as no discarded
    window comes before a retained one. *)

Lemma partOfYearAt_valid (windows : list (list JsValue)) (index : nat) :
  Forall valid (nth index windows []) -> nth index windows [] <> [] ->
  partOfYearAt windows index = Return (fractionOfYear (nth index windows [])).
Proof.
  intros Hvalid Hne. unfold partOfYearAt, fractionOfYear.
  rewrite Forall_forall in Hvalid.
  rewrite (valid_dateTime _ (Hvalid _ (at_last_In _ Hne))). simpl.
  rewrite (valid_dateTime _ (Hvalid _ (at_first_In _ Hne))). reflexivity.
Qed.

Lemma retained_nonempty (window : list JsValue) :
  Number_isNaN (ratioOf window) = false -> window <> [].
Proof.
  intros Hratio ->. rewrite (ratioOf_short []) in Hratio by (simpl; lia).
  discriminate Hratio.
Qed.

Lemma mapiM_from_aligned (dropped : list (list JsValue)) :
  forall kept before : list (list JsValue),
    Forall (fun window => Forall valid window /\ Number_isNaN (ratioOf window) = false) kept ->
    mapiM_from (List.length before)
      (fun index rate =>
         partOfYear <- partOfYearAt (before ++ kept ++ dropped) index ;;
         Return {| rate := rate; partOfYear := partOfYear |})
      (map (fun window => (ratioOf window - 1)%float) kept)
    = Return (map sampleOf kept).
Proof.
  induction kept as [|window rest IH]; intros before Hkept; simpl; [reflexivity|].
  inversion Hkept as [|? ? [Hvalid Hratio] Hrest]; subst.
  assert (Hnth : nth (List.length before) (before ++ window :: rest ++ dropped) [] = window)
    by apply nth_middle.
  rewrite partOfYearAt_valid; rewrite Hnth;
    [|exact Hvalid|exact (retained_nonempty window Hratio)].
  simpl.
  specialize (IH (before ++ [window]) Hrest).
  rewrite length_app, Nat.add_1_r, <- app_assoc in IH. simpl in IH.
  rewrite IH. reflexivity.
Qed.

Lemma filter_all {A : Type} (p : A -> bool) (l : list A) :
  Forall (fun x => p x = true) l -> filter p l = l.
Proof.
  induction 1 as [|x rest Hx _ IH]; simpl; [reflexivity|].
  rewrite Hx, IH. reflexivity.
Qed.

Lemma filter_none {A : Type} (p : A -> bool) (l : list A) :
  Forall (fun x => p x = false) l -> filter p l = [].
Proof.
  induction 1 as [|x rest Hx _ IH]; simpl; [reflexivity|].
  rewrite Hx, IH. reflexivity.
Qed.

Lemma retainedWindows_aligned (kept dropped : list (list JsValue)) :
  Forall (fun window => Number_isNaN (ratioOf window) = false) kept ->
  Forall (fun window => Number_isNaN (ratioOf window) = true) dropped ->
  retainedWindows (kept ++ dropped) = kept.
Proof.
  intros Hkept Hdropped. unfold retainedWindows. rewrite filter_app.
  rewrite filter_all, filter_none, app_nil_r; [reflexivity| |].
  - eapply Forall_impl; [|exact Hdropped]. simpl. intros window ->. reflexivity.
  - eapply Forall_impl; [|exact Hkept]. simpl. intros window ->. reflexivity.
Qed.

Lemma fold_left_samples (f : float -> GrowthSample -> float)
    (windows : list (list JsValue)) :
  forall start : float,
    fold_left f (map sampleOf windows) start
    = fold_left (fun sum window => f sum (sampleOf window)) windows start.
Proof.
  induction windows as [|window rest IH]; intros start; simpl; [reflexivity|apply IH].
Qed.

Lemma aggregate_samples (windows : list (list JsValue)) :
  aggregate (map sampleOf (retainedWindows windows)) = timeWeightedAverage windows.
Proof.
  unfold aggregate, timeWeightedAverage.
  rewrite !fold_left_samples. reflexivity.
Qed.

(** X6. With every retained window before every discarded one, the estimate is
    the time-weighted average over the retained windows. *)
Lemma cagr_time_weighted_when_aligned (data dates : list JsValue)
    (kept dropped : list (list JsValue)) :
  List.length data = List.length dates ->
  getWindows (JsArray (mergeData data dates)) yearInMs (Some (yearInMs / 2))
  = Return (kept ++ dropped) ->
  Forall (fun window => Number_isNaN (ratioOf window) = false) kept ->
  Forall (fun window => Number_isNaN (ratioOf window) = true) dropped ->
  getLinearRegressionCAGR (JsArray data) (JsArray dates)
  = Return (timeWeightedAverage (kept ++ dropped)).
Proof.
  intros Hlength Hwindows Hkept Hdropped.
  pose proof (getWindows_windows_valid _ _ _ _ Hwindows) as Hvalid.
  unfold getLinearRegressionCAGR. simpl ensureArray. simpl bind.
  rewrite Hlength, Nat.eqb_refl. simpl negb. cbv iota.
  rewrite Hwindows. simpl bind. rewrite (growthRates_valid _ Hvalid). simpl bind.
  unfold validGrowthRatesOf, mapiM.
  rewrite filter_map_commute, map_map.
  fold (retainedWindows (kept ++ dropped)).
  rewrite (retainedWindows_aligned kept dropped Hkept Hdropped).
  assert (Hboth : Forall (fun window => Forall valid window
                                       /\ Number_isNaN (ratioOf window) = false) kept).
  { apply Forall_app in Hvalid. destruct Hvalid as [Hvalid _].
    rewrite Forall_forall in *. intros window Hin. split; auto. }
  pose proof (mapiM_from_aligned dropped kept [] Hboth) as Hsamples.
  simpl in Hsamples. rewrite Hsamples. simpl bind.
  rewrite <- (retainedWindows_aligned kept dropped Hkept Hdropped) at 1.
  rewrite aggregate_samples. reflexivity.
Qed.

(** ** More of getWindows: the order of its checks, and how the windows tile the series *)

(** X1. [getWindows] makes its checks in a fixed order, and the first that
    fails decides the error: the data error whatever the window size and the
    overlap are, then the window size error whatever the overlap is, then the
    overlap error; and every [Error] it throws is one of the three, thrown for
    its own condition. *)
Theorem getWindows_check_order :
  (forall data windowSizeInMs overlapInMs,
      (forall items, data <> JsArray items) ->
      getWindows data windowSizeInMs overlapInMs = Throw (dataError data))
  /\ (forall items windowSizeInMs overlapInMs,
        every hasValidValues items = Return false ->
        getWindows (JsArray items) windowSizeInMs overlapInMs
        = Throw (dataError (JsArray items)))
  /\ (forall items windowSizeInMs overlapInMs,
        every hasValidValues items = Return true -> windowSizeInMs <= 0 ->
        getWindows (JsArray items) windowSizeInMs overlapInMs
        = Throw (windowSizeError windowSizeInMs))
  /\ (forall items windowSizeInMs overlapInMs,
        every hasValidValues items = Return true ->
        0 < windowSizeInMs -> windowSizeInMs <= overlapOf overlapInMs ->
        getWindows (JsArray items) windowSizeInMs overlapInMs
        = Throw (overlapError (overlapOf overlapInMs) windowSizeInMs))
  /\ (forall data windowSizeInMs overlapInMs message,
        getWindows data windowSizeInMs overlapInMs = Throw (Error message) ->
        (Error message = dataError data
         /\ ((forall items, data <> JsArray items)
             \/ exists items, data = JsArray items
                              /\ every hasValidValues items = Return false))
        \/ (Error message = windowSizeError windowSizeInMs /\ windowSizeInMs <= 0)
        \/ (Error message = overlapError (overlapOf overlapInMs) windowSizeInMs
            /\ windowSizeInMs <= overlapOf overlapInMs)).
Proof.
  split; [exact getWindows_not_array|].
  split; [exact getWindows_invalid_element|].
  split; [exact getWindows_window_size|].
  split; [exact getWindows_overlap|exact getWindows_errors].
Qed.

Lemma getWindows_check_order_witness :
  getWindows (JsArray [JsObject [("date", JsNumber 7); ("value", JsNumber 3)]]) 0 (Some 200)
  = Throw (dataError (JsArray [JsObject [("date", JsNumber 7); ("value", JsNumber 3)]])).
Proof.
  apply (proj1 (proj2 getWindows_check_order)). reflexivity.
Defined.






(** X4. A series whose last timestamp is not after its first (one observation,
    equal timestamps, or a series given latest first) gets no window at all. *)
Theorem getWindows_no_window_without_span
    (items : list JsValue) (windowSizeInMs : Z) (overlapInMs : option Z) :
  Forall valid items -> items <> [] ->
  0 < windowSizeInMs -> overlapOf overlapInMs < windowSizeInMs ->
  span items <= 0 ->
  getWindows (JsArray items) windowSizeInMs overlapInMs = Return [].
Proof.
  intros Hvalid Hne Hsize Hoverlap Hspan.
  rewrite getWindows_valid by assumption.
  unfold windowsOver.
  pose proof (Math_ceil_div_bounds (span items) (windowSizeInMs - overlapOf overlapInMs)
                ltac:(lia)) as Hceil.
  replace (Z.to_nat (Math_ceil_div (span items) (windowSizeInMs - overlapOf overlapInMs)))
    with 0%nat by nia.
  reflexivity.
Qed.

Lemma getWindows_no_window_without_span_witness :
  getWindows (JsArray (rev secondsData)) 3000 (Some 1500) = Return [].
Proof.
  apply (getWindows_no_window_without_span (rev secondsData) 3000 (Some 1500)).
  - unfold secondsData. simpl. repeat constructor.
  - discriminate.
  - reflexivity.
  - reflexivity.
  - discriminate.
Defined.



(** ** More of getLinearRegressionCAGR: argument errors, and when it returns *)

Lemma cagr_time_weighted_when_aligned_witness :
  getLinearRegressionCAGR (JsArray partialValues) (JsArray partialDates)
  = Return (timeWeightedAverage ([partialData] ++ [[nth 3 partialData JsUndefined]])).
Proof.
  apply (cagr_time_weighted_when_aligned partialValues partialDates
           [partialData] [[nth 3 partialData JsUndefined]]).
  - reflexivity.
  - vm_compute. reflexivity.
  - repeat constructor.
  - repeat constructor.
Defined.

Lemma mapi_from_merge :
  forall (data dates before : list JsValue),
    List.length data = List.length dates ->
    mapi_from (List.length before)
      (fun index item => JsObject [("value", item); ("date", nth index (before ++ dates) JsUndefined)])
      data
    = map mergedObject (combine data dates).
Proof.
  induction data as [|item rest IH]; intros dates before Hlength; simpl; [reflexivity|].
  destruct dates as [|date dates]; [discriminate Hlength|].
  simpl. rewrite nth_middle. unfold mergedObject at 1. simpl. f_equal.
  specialize (IH dates (before ++ [date]) ltac:(simpl in Hlength; lia)).
  rewrite length_app, Nat.add_1_r, <- app_assoc in IH. exact IH.
Qed.

Lemma mergeData_combine (data dates : list JsValue) :
  List.length data = List.length dates ->
  mergeData data dates = map mergedObject (combine data dates).
Proof.
  intros Hlength. unfold mergeData, mapi.
  exact (mapi_from_merge data dates [] Hlength).
Qed.

Lemma hasValidValues_merged (pair : JsValue * JsValue) :
  hasValidValues (mergedObject pair) = Return (validPair pair).
Proof.
  destruct pair as [value date]. unfold hasValidValues, mergedObject, validPair. simpl.
  destruct (typeof value =? "number")%string; reflexivity.
Qed.

Lemma every_merged (pairs : list (JsValue * JsValue)) :
  every hasValidValues (map mergedObject pairs) = Return (forallb validPair pairs).
Proof.
  induction pairs as [|pair rest IH]; simpl; [reflexivity|].
  rewrite hasValidValues_merged. simpl.
  destruct (validPair pair); simpl; [exact IH|reflexivity].
Qed.

Lemma forallb_validPair_false (data dates : list JsValue) :
  List.length data = List.length dates ->
  Exists (fun value => typeof value <> "number") data
  \/ Exists (fun date => instanceofDate date = false) dates ->
  forallb validPair (combine data dates) = false.
Proof.
  revert dates. induction data as [|value rest IH]; intros dates Hlength Hbad.
  - destruct dates; [|discriminate Hlength].
    destruct Hbad as [Hbad|Hbad]; inversion Hbad.
  - destruct dates as [|date dates]; [discriminate Hlength|]. simpl.
    destruct (validPair (value, date)) eqn:Hpair; [|reflexivity]. simpl.
    unfold validPair in Hpair. simpl in Hpair.
    apply andb_true_iff in Hpair. destruct Hpair as [Hvalue Hdate].
    apply String.eqb_eq in Hvalue.
    apply IH; [simpl in Hlength; lia|].
    destruct Hbad as [Hbad|Hbad]; inversion Hbad; subst.
    + contradiction.
    + left. assumption.
    + congruence.
    + right. assumption.
Qed.

(** X7. The argument errors of the estimator, in the order the source raises
    them: [data] that is not an array, then [dates] that is not an array, each
    with the error of [ensureArray] showing the argument; and, for arrays of
    equal length, a value that is not a number or a date that is not a [Date]
    gives the data error of [getWindows], showing the merged observations. *)
Theorem cagr_argument_errors :
  (forall data dates : JsValue,
      (forall items, data <> JsArray items) ->
      getLinearRegressionCAGR data dates
      = Throw (Error [Text "Expected parameter to be an array, got "; Value data;
                      Text " instead."]))
  /\ (forall (items : list JsValue) (dates : JsValue),
        (forall dateItems, dates <> JsArray dateItems) ->
        getLinearRegressionCAGR (JsArray items) dates
        = Throw (Error [Text "Expected parameter to be an array, got "; Value dates;
                        Text " instead."]))
  /\ (forall data dates : list JsValue,
        List.length data = List.length dates ->
        Exists (fun value => typeof value <> "number") data
        \/ Exists (fun date => instanceofDate date = false) dates ->
        getLinearRegressionCAGR (JsArray data) (JsArray dates)
        = Throw (dataError (JsArray (mergeData data dates)))).
Proof.
  split; [|split].
  - intros data dates Hdata. destruct data; try reflexivity.
    exfalso. exact (Hdata _ eq_refl).
  - intros items dates Hdates. destruct dates; try reflexivity.
    exfalso. exact (Hdates _ eq_refl).
  - intros data dates Hlength Hbad.
    unfold getLinearRegressionCAGR. simpl ensureArray. simpl bind.
    rewrite Hlength, Nat.eqb_refl. simpl negb. cbv iota.
    unfold getWindows.
    rewrite (mergeData_combine data dates Hlength) at 1.
    rewrite every_merged, (forallb_validPair_false data dates Hlength Hbad).
    reflexivity.
Qed.

Lemma cagr_argument_errors_witness :
  getLinearRegressionCAGR (JsArray [JsNumber 1; JsNumber 2])
    (JsArray [JsDate 1704067200000; JsNumber 2])
  = Throw (dataError (JsArray (mergeData [JsNumber 1; JsNumber 2]
                                         [JsDate 1704067200000; JsNumber 2]))).
Proof.
  apply (proj2 (proj2 cagr_argument_errors) [JsNumber 1; JsNumber 2]
           [JsDate 1704067200000; JsNumber 2]).
  - reflexivity.
  - right. right. left. reflexivity.
Defined.

Lemma partOfYearAt_outcome (windows : list (list JsValue)) (index : nat) :
  Forall (Forall valid) windows ->
  partOfYearAt windows index = Return (fractionOfYear (nth index windows []))
  \/ (nth index windows [] = []
      /\ partOfYearAt windows index = Throw (TypeError "date" JsUndefined)).
Proof.
  intros Hvalid.
  destruct (nth index windows []) as [|item rest] eqn:Hwindow.
  - right. split; [reflexivity|]. unfold partOfYearAt. rewrite Hwindow. reflexivity.
  - left. rewrite <- Hwindow. apply partOfYearAt_valid.
    + destruct (Nat.lt_ge_cases index (List.length windows)) as [Hlt|Hge].
      * rewrite Forall_forall in Hvalid. apply Hvalid. apply nth_In. exact Hlt.
      * rewrite nth_overflow in Hwindow by exact Hge. discriminate Hwindow.
    + rewrite Hwindow. discriminate.
Qed.

Lemma mapiM_from_outcome (windows : list (list JsValue)) (rates : list float) :
  Forall (Forall valid) windows ->
  forall start : nat,
    (exists samples,
        mapiM_from start
          (fun index rate =>
             partOfYear <- partOfYearAt windows index ;;
             Return {| rate := rate; partOfYear := partOfYear |})
          rates
        = Return samples)
    \/ ((exists index, (start <= index < start + List.length rates)%nat
                       /\ nth index windows [] = [])
        /\ mapiM_from start
             (fun index rate =>
                partOfYear <- partOfYearAt windows index ;;
                Return {| rate := rate; partOfYear := partOfYear |})
             rates
           = Throw (TypeError "date" JsUndefined)).
Proof.
  intros Hvalid. induction rates as [|r rest IH]; intros start; simpl.
  - left. eexists. reflexivity.
  - destruct (partOfYearAt_outcome windows start Hvalid) as [Hpart|[Hempty Hpart]];
      rewrite Hpart; simpl.
    + destruct (IH (S start)) as [[samples Hrest]|[(index & Hindex & Hempty) Hrest]];
        rewrite Hrest; simpl.
      * left. eexists. reflexivity.
      * right. split; [|reflexivity]. exists index. split; [lia|exact Hempty].
    + right. split; [|reflexivity]. exists start. split; [lia|exact Hempty].
Qed.

(** X8. Once the arguments have passed the checks, the estimator can fail in
    one way only: with the [TypeError] of reading [date] from [undefined],
    and then some window is empty.  If no window is empty it returns a number. *)
Theorem cagr_fails_only_on_empty_window
    (data dates : list JsValue) (windows : list (list JsValue)) :
  List.length data = List.length dates ->
  getWindows (JsArray (mergeData data dates)) yearInMs (Some (yearInMs / 2)) = Return windows ->
  (exists result, getLinearRegressionCAGR (JsArray data) (JsArray dates) = Return result)
  \/ (In [] windows
      /\ getLinearRegressionCAGR (JsArray data) (JsArray dates)
         = Throw (TypeError "date" JsUndefined)).
Proof.
  intros Hlength Hwindows.
  pose proof (getWindows_windows_valid _ _ _ _ Hwindows) as Hvalid.
  unfold getLinearRegressionCAGR. simpl ensureArray. simpl bind.
  rewrite Hlength, Nat.eqb_refl. simpl negb. cbv iota.
  rewrite Hwindows. simpl bind. rewrite (growthRates_valid _ Hvalid). simpl bind.
  unfold validGrowthRatesOf, mapiM.
  match goal with
  | |- context [mapiM_from 0%nat _ ?rates] =>
      destruct (mapiM_from_outcome windows rates Hvalid 0%nat)
        as [[samples Hsamples]|[(index & Hindex & Hempty) Hsamples]]
  end; rewrite Hsamples; simpl.
  - left. eexists. reflexivity.
  - right. split; [|reflexivity].
    rewrite <- Hempty. apply nth_In.
    rewrite length_map in Hindex.
    pose proof (filter_length_le (fun rate => negb (Number_isNaN rate)) (map ratioOf windows))
      as Hfilter.
    rewrite length_map in Hfilter. lia.
Qed.

Lemma cagr_fails_only_on_empty_window_witness :
  (exists result,
      getLinearRegressionCAGR (JsArray gapValues) (JsArray gapDates) = Return result)
  \/ (In [] [[nth 0 (mergeData gapValues gapDates) JsUndefined;
              nth 1 (mergeData gapValues gapDates) JsUndefined];
             [];
             [nth 2 (mergeData gapValues gapDates) JsUndefined;
              nth 3 (mergeData gapValues gapDates) JsUndefined];
             [nth 2 (mergeData gapValues gapDates) JsUndefined;
              nth 3 (mergeData gapValues gapDates) JsUndefined]]
      /\ getLinearRegressionCAGR (JsArray gapValues) (JsArray gapDates)
         = Throw (TypeError "date" JsUndefined)).
Proof.
  apply (cagr_fails_only_on_empty_window gapValues gapDates); reflexivity.
Defined.

(** ** ensureArray *)

Lemma filter_nil_Forall {A : Type} (p : A -> bool) (l : list A) :
  filter p l = [] <-> Forall (fun x => p x = false) l.
Proof.
  induction l as [|x rest IH]; simpl.
  - split; [constructor|reflexivity].
  - destruct (p x) eqn:Hx.
    + split; [discriminate|]. intros H. inversion H; congruence.
    + rewrite IH. split.
      * intros H. constructor; assumption.
      * intros H. inversion H; assumption.
Qed.

(** X9. [ensureArray] returns exactly when its argument is an array whose
    every item has the asked type (any array when no type is asked), and what
    it returns is the argument's own items; otherwise it throws an [Error],
    which for an array lists the items of another type, in their order. *)
Theorem ensureArray_returns_iff :
  (forall (data : JsValue) (type : option string) (items : list JsValue),
      ensureArray data type = Return items
      <-> data = JsArray items
          /\ match type with
             | Some name => Forall (fun item => typeof item = name) items
             | None => True
             end)
  /\ (forall (data : JsValue) (type : option string) (e : Exception),
        ensureArray data type = Throw e ->
        ((forall items, data <> JsArray items)
         /\ e = Error [Text "Expected parameter to be an array, got "; Value data;
                       Text " instead."])
        \/ exists items name,
             data = JsArray items /\ type = Some name
             /\ filter (fun item => negb (String.eqb (typeof item) name)) items <> []
             /\ e = Error [Text "Expected every item of array to be of type "; Text name;
                           Text ", got items ";
                           Joined (filter (fun item => negb (String.eqb (typeof item) name))
                                          items);
                           Text " with types ";
                           JoinedText
                             (map typeof
                                  (filter (fun item => negb (String.eqb (typeof item) name))
                                          items));
                           Text " instead."]).
Proof.
  split.
  - intros data type items. destruct data as [| | | | | | |array];
      try (split; [discriminate|intros [H _]; discriminate H]).
    simpl. destruct type as [name|].
    + destruct (filter (fun item => negb (typeof item =? name)%string) array) as [|bad rest]
        eqn:Hfilter.
      * apply filter_nil_Forall in Hfilter. split.
        -- intros H. injection H as <-. split; [reflexivity|].
           eapply Forall_impl; [|exact Hfilter]. simpl. intros item Hitem.
           apply negb_false_iff in Hitem. apply String.eqb_eq. exact Hitem.
        -- intros [H _]. injection H as <-. reflexivity.
      * split; [discriminate|]. intros [H Hall]. injection H as <-. exfalso.
        assert (Hin : In bad (filter (fun item => negb (typeof item =? name)%string) array))
          by (rewrite Hfilter; left; reflexivity).
        apply filter_In in Hin. destruct Hin as [Hin Hbad].
        rewrite Forall_forall in Hall. rewrite (Hall bad Hin), String.eqb_refl in Hbad.
        discriminate Hbad.
    + split.
      * intros H. injection H as <-. split; [reflexivity|exact I].
      * intros [H _]. injection H as <-. reflexivity.
  - intros data type e. destruct data as [| | | | | | |array];
      try (intros H; left; split; [discriminate|injection H as <-; reflexivity]).
    simpl. destruct type as [name|]; [|discriminate].
    destruct (filter (fun item => negb (typeof item =? name)%string) array) as [|bad rest]
      eqn:Hfilter; [discriminate|].
    intros H. right. exists array, name.
    split; [reflexivity|]. split; [reflexivity|].
    rewrite Hfilter. split; [discriminate|]. injection H as <-. reflexivity.
Qed.

Lemma ensureArray_returns_iff_witness :
  ensureArray (JsArray [JsNumber 2; JsNumber 3; JsNumber 4]) (Some "number")
  = Return [JsNumber 2; JsNumber 3; JsNumber 4].
Proof.
  apply (proj1 ensureArray_returns_iff). split; [reflexivity|repeat constructor].
Defined.

(** ** The order of binary64 numbers *)

Lemma SFcompare_refl (f : spec_float) : f <> S754_nan -> SFcompare f f = Some Eq.
Proof.
  destruct f as [s|s| |s m e]; simpl; intros Hf; try congruence.
  - destruct s; reflexivity.
  - rewrite Z.compare_refl, Pos.compare_cont_refl. destruct s; reflexivity.
Qed.

Lemma SFcompare_antisym (a b : spec_float) (c : comparison) :
  SFcompare a b = Some c -> SFcompare b a = Some (CompOpp c).
Proof.
  destruct a as [sa|sa| |sa ma ea], b as [sb|sb| |sb mb eb]; simpl;
    try discriminate; intros H; injection H as <-;
    try (destruct sa); try (destruct sb); try reflexivity.
  - rewrite (Z.compare_antisym ea eb).
    destruct (ea ?= eb); simpl; try reflexivity.
    rewrite (ZC4 mb ma), CompOpp_involutive. reflexivity.
  - rewrite (Z.compare_antisym ea eb).
    destruct (ea ?= eb); simpl; try reflexivity.
    rewrite (ZC4 mb ma). reflexivity.
Qed.

Lemma SFcompare_some (a b : spec_float) :
  a <> S754_nan -> b <> S754_nan -> exists c, SFcompare a b = Some c.
Proof.
  destruct a, b; simpl; intros Ha Hb; try congruence; eexists; reflexivity.
Qed.

Lemma SFleb_trans (a b c : spec_float) :
  SFleb a b = true -> SFleb b c = true -> SFleb a c = true.
Proof.
  unfold SFleb.
  destruct a as [sa|sa| |sa ma ea], b as [sb|sb| |sb mb eb], c as [sc|sc| |sc mc ec]; simpl;
    try discriminate; try reflexivity;
    try (destruct sa); try (destruct sb); try (destruct sc); simpl;
    try discriminate; try reflexivity;
    rewrite ?Pos.compare_cont_spec; simpl;
    destruct (Z.compare_spec ea eb), (Z.compare_spec eb ec), (Z.compare_spec ea ec);
    destruct (Pos.compare_spec ma mb), (Pos.compare_spec mb mc), (Pos.compare_spec ma mc);
    simpl; try discriminate; try reflexivity; intros; lia.
Qed.

Lemma is_nan_spec (x : float) : is_nan x = true <-> Prim2SF x = S754_nan.
Proof.
  unfold is_nan. rewrite FloatAxioms.eqb_spec. unfold SFeqb. split.
  - intros H. destruct (Prim2SF x) as [s|s| |s m e] eqn:Hx; try reflexivity;
      rewrite SFcompare_refl in H by discriminate; discriminate H.
  - intros ->. reflexivity.
Qed.

Lemma not_nan_spec (x : float) : is_nan x = false <-> Prim2SF x <> S754_nan.
Proof.
  rewrite <- is_nan_spec. destruct (is_nan x); split; congruence.
Qed.

Lemma is_nan_eq (x : float) : is_nan x = true -> x = nan.
Proof. intros H. apply Prim2SF_inj. apply is_nan_spec in H. rewrite H. reflexivity. Qed.

Lemma leb_refl (x : float) : is_nan x = false -> (x <=? x)%float = true.
Proof.
  intros Hx. rewrite FloatAxioms.leb_spec. unfold SFleb.
  rewrite SFcompare_refl; [reflexivity|]. apply not_nan_spec. exact Hx.
Qed.

Lemma ltb_leb (x y : float) : (x <? y)%float = true -> (x <=? y)%float = true.
Proof.
  rewrite FloatAxioms.ltb_spec, FloatAxioms.leb_spec. unfold SFltb, SFleb.
  destruct (SFcompare (Prim2SF x) (Prim2SF y)) as [[| |]|]; congruence.
Qed.

Lemma not_ltb_leb (x y : float) :
  is_nan x = false -> is_nan y = false -> (x <? y)%float = false -> (y <=? x)%float = true.
Proof.
  rewrite !not_nan_spec, FloatAxioms.ltb_spec, FloatAxioms.leb_spec. unfold SFltb, SFleb.
  intros Hx Hy. destruct (SFcompare_some _ _ Hx Hy) as [c Hc].
  rewrite Hc, (SFcompare_antisym _ _ _ Hc). destruct c; simpl; congruence.
Qed.

Lemma leb_trans (x y z : float) :
  (x <=? y)%float = true -> (y <=? z)%float = true -> (x <=? z)%float = true.
Proof. rewrite !FloatAxioms.leb_spec. apply SFleb_trans. Qed.

Lemma leb_not_nan (x y : float) :
  (x <=? y)%float = true -> is_nan x = false /\ is_nan y = false.
Proof.
  rewrite FloatAxioms.leb_spec, !not_nan_spec. unfold SFleb.
  destruct (Prim2SF x), (Prim2SF y); simpl; try discriminate; split; discriminate.
Qed.

Lemma neg_infinity_leb (x : float) : is_nan x = false -> (neg_infinity <=? x)%float = true.
Proof.
  rewrite not_nan_spec, FloatAxioms.leb_spec.
  change (Prim2SF neg_infinity) with (S754_infinity true).
  destruct (Prim2SF x) as [s|s| |s m e]; simpl; try congruence; try reflexivity.
  destruct s; reflexivity.
Qed.

Lemma leb_infinity (x : float) : is_nan x = false -> (x <=? infinity)%float = true.
Proof.
  rewrite not_nan_spec, FloatAxioms.leb_spec.
  change (Prim2SF infinity) with (S754_infinity false).
  destruct (Prim2SF x) as [s|s| |s m e]; simpl; try congruence; try reflexivity;
    destruct s; reflexivity.
Qed.

Lemma not_ltb_neg_infinity (x : float) :
  is_nan x = false -> (neg_infinity <? x)%float = false -> x = neg_infinity.
Proof.
  rewrite not_nan_spec, FloatAxioms.ltb_spec. intros Hx H. apply Prim2SF_inj.
  change (Prim2SF neg_infinity) with (S754_infinity true) in *.
  destruct (Prim2SF x) as [s|s| |s m e]; simpl in *; try congruence; try discriminate H.
  destruct s; [reflexivity|discriminate H].
Qed.

Lemma not_ltb_infinity (x : float) :
  is_nan x = false -> (x <? infinity)%float = false -> x = infinity.
Proof.
  rewrite not_nan_spec, FloatAxioms.ltb_spec. intros Hx H. apply Prim2SF_inj.
  change (Prim2SF infinity) with (S754_infinity false) in *.
  destruct (Prim2SF x) as [s|s| |s m e]; simpl in *; try congruence;
    try (destruct s; discriminate H).
  destruct s; [discriminate H|reflexivity].
Qed.

Lemma zeros_leb (x y : float) :
  isPositiveZero x = true -> isNegativeZero y = true ->
  (y <=? x)%float = true /\ (x <=? y)%float = true.
Proof.
  unfold isPositiveZero, isNegativeZero. rewrite !FloatAxioms.classify_spec, !FloatAxioms.leb_spec.
  unfold SF64classify, SFclassify.
  destruct (Prim2SF x) as [[|]|[|]| |[|] mx ex], (Prim2SF y) as [[|]|[|]| |[|] my ey];
    simpl; try discriminate;
    repeat match goal with
           | |- context [if ?c then _ else _] => destruct c
           end; try discriminate; split; reflexivity.
Qed.

(** ** Math.max and Math.min *)

Lemma maxOf_cases (highest number : float) :
  is_nan highest = false -> is_nan number = false ->
  (maxOf highest number = highest \/ maxOf highest number = number)
  /\ (highest <=? maxOf highest number)%float = true
  /\ (number <=? maxOf highest number)%float = true.
Proof.
  intros Hh Hn. unfold maxOf. rewrite Hh, Hn. simpl.
  destruct (isPositiveZero number && isNegativeZero highest) eqn:Hzero.
  - apply andb_true_iff in Hzero. destruct Hzero as [Hp Hz].
    destruct (zeros_leb number highest Hp Hz) as [Hle _].
    split; [right; reflexivity|]. split; [exact Hle|apply leb_refl; exact Hn].
  - destruct (highest <? number)%float eqn:Hlt.
    + split; [right; reflexivity|]. split; [apply ltb_leb; exact Hlt|apply leb_refl; exact Hn].
    + split; [left; reflexivity|].
      split; [apply leb_refl; exact Hh|apply not_ltb_leb; assumption].
Qed.

Lemma maxOf_neg_infinity (number : float) :
  is_nan number = false -> maxOf neg_infinity number = number.
Proof.
  intros Hn. unfold maxOf. rewrite Hn.
  replace (is_nan neg_infinity) with false by reflexivity.
  replace (isNegativeZero neg_infinity) with false by reflexivity.
  rewrite andb_false_r. simpl.
  destruct (neg_infinity <? number)%float eqn:Hlt; [reflexivity|].
  symmetry. apply not_ltb_neg_infinity; assumption.
Qed.

Lemma maxOf_nan (highest number : float) :
  is_nan highest = true \/ is_nan number = true -> maxOf highest number = nan.
Proof.
  intros H. unfold maxOf.
  replace (is_nan highest || is_nan number) with true; [reflexivity|].
  symmetry. apply orb_true_iff. exact H.
Qed.

Lemma minOf_cases (lowest number : float) :
  is_nan lowest = false -> is_nan number = false ->
  (minOf lowest number = lowest \/ minOf lowest number = number)
  /\ (minOf lowest number <=? lowest)%float = true
  /\ (minOf lowest number <=? number)%float = true.
Proof.
  intros Hl Hn. unfold minOf. rewrite Hl, Hn. simpl.
  destruct (isNegativeZero number && isPositiveZero lowest) eqn:Hzero.
  - apply andb_true_iff in Hzero. destruct Hzero as [Hz Hp].
    destruct (zeros_leb lowest number Hp Hz) as [Hle _].
    split; [right; reflexivity|]. split; [exact Hle|apply leb_refl; exact Hn].
  - destruct (number <? lowest)%float eqn:Hlt.
    + split; [right; reflexivity|]. split; [apply ltb_leb; exact Hlt|apply leb_refl; exact Hn].
    + split; [left; reflexivity|].
      split; [apply leb_refl; exact Hl|apply not_ltb_leb; assumption].
Qed.

Lemma minOf_infinity (number : float) :
  is_nan number = false -> minOf infinity number = number.
Proof.
  intros Hn. unfold minOf. rewrite Hn.
  replace (is_nan infinity) with false by reflexivity.
  replace (isPositiveZero infinity) with false by reflexivity.
  rewrite andb_false_r. simpl.
  destruct (number <? infinity)%float eqn:Hlt; [reflexivity|].
  symmetry. apply not_ltb_infinity; assumption.
Qed.

Lemma minOf_nan (lowest number : float) :
  is_nan lowest = true \/ is_nan number = true -> minOf lowest number = nan.
Proof.
  intros H. unfold minOf.
  replace (is_nan lowest || is_nan number) with true; [reflexivity|].
  symmetry. apply orb_true_iff. exact H.
Qed.

Lemma Math_max_pair (a x : float) :
  is_nan a = false -> is_nan x = false ->
  (Math_max [a; x] = a \/ Math_max [a; x] = x)
  /\ (a <=? Math_max [a; x])%float = true
  /\ (x <=? Math_max [a; x])%float = true.
Proof.
  intros Ha Hx. unfold Math_max. simpl. rewrite (maxOf_neg_infinity a Ha).
  apply maxOf_cases; assumption.
Qed.

Lemma Math_max_first (x : float) :
  is_nan x = false -> Math_max [neg_infinity; x] = x.
Proof.
  intros Hx. unfold Math_max. simpl.
  rewrite (maxOf_neg_infinity neg_infinity) by reflexivity.
  apply maxOf_neg_infinity. exact Hx.
Qed.

(** ** main.mjs: the running maximum *)

Lemma ensureArray_numbers (xs : list float) :
  ensureArray (JsArray (map JsNumber xs)) (Some "number") = Return (map JsNumber xs).
Proof.
  simpl.
  replace (filter (fun item => negb (typeof item =? "number")%string) (map JsNumber xs))
    with (@nil JsValue); [reflexivity|].
  induction xs as [|x rest IH]; simpl; [reflexivity|exact IH].
Qed.

Lemma fold_left_numbers {A : Type} (f : A -> float -> A) (xs : list float) :
  forall start : A,
    fold_left (fun acc item => f acc (numberOf item)) (map JsNumber xs) start
    = fold_left f xs start.
Proof.
  induction xs as [|x rest IH]; intros start; simpl; [reflexivity|apply IH].
Qed.

Lemma getMaxAsSeries_numbers (xs : list float) :
  getMaxAsSeries (JsArray (map JsNumber xs)) = Return (runningMax xs).
Proof.
  unfold getMaxAsSeries. rewrite ensureArray_numbers. simpl bind.
  unfold runningMax.
  rewrite (fold_left_numbers (fun prev x => prev ++ [Math_max [last prev neg_infinity; x]])).
  reflexivity.
Qed.

Lemma runningMax_snoc (xs : list float) (x : float) :
  runningMax (xs ++ [x])
  = runningMax xs ++ [Math_max [last (runningMax xs) neg_infinity; x]].
Proof. unfold runningMax. rewrite fold_left_app. reflexivity. Qed.

Lemma runningMax_length (xs : list float) : List.length (runningMax xs) = List.length xs.
Proof.
  induction xs as [|x rest IH] using rev_ind; [reflexivity|].
  rewrite runningMax_snoc, !length_app, IH. reflexivity.
Qed.

Lemma runningMax_bounds (xs : list float) :
  Forall notNaN xs ->
  Forall notNaN (runningMax xs)
  /\ (forall i j, (j <= i < List.length xs)%nat ->
        (nth j xs nan <=? nth i (runningMax xs) nan)%float = true)
  /\ (forall i, (i < List.length xs)%nat ->
        exists j, (j <= i)%nat /\ nth i (runningMax xs) nan = nth j xs nan).
Proof.
  induction xs as [|x rest IH] using rev_ind; intros Hxs.
  - split; [constructor|]. split; simpl; intros; lia.
  - apply Forall_app in Hxs. destruct Hxs as [Hrest Hx].
    inversion Hx as [|? ? Hx' _]; subst. clear Hx.
    destruct (IH Hrest) as (Hout & Hbound & Hattained). clear IH.
    pose proof (runningMax_length rest) as Hlength.
    rewrite runningMax_snoc.
    set (out := runningMax rest) in *.
    set (m := Math_max [last out neg_infinity; x]).
    assert (Hm : notNaN m
                 /\ (x <=? m)%float = true
                 /\ (forall i, (i < List.length rest)%nat ->
                       (nth i out nan <=? m)%float = true)
                 /\ (m = x \/ exists i, (i < List.length rest)%nat /\ m = nth i out nan)).
    { assert (Hshape : out = [] \/ exists out0 a, out = out0 ++ [a]).
      { destruct out as [|o os] eqn:Hshape; [left; reflexivity|right].
        destruct (@exists_last _ (o :: os) ltac:(discriminate)) as (out0 & a & ->).
        exists out0, a. reflexivity. }
      destruct Hshape as [Hnil|(out0 & a & Hsnoc)].
      - assert (Hrest0 : List.length rest = 0%nat) by (rewrite <- Hlength, Hnil; reflexivity).
        unfold m. rewrite Hnil. simpl last. rewrite (Math_max_first x Hx').
        split; [exact Hx'|]. split; [apply leb_refl; exact Hx'|].
        split; [intros i Hi; lia|left; reflexivity].
      - assert (Ha : notNaN a).
        { rewrite Hsnoc in Hout. apply Forall_app in Hout. destruct Hout as [_ Hout].
          inversion Hout; assumption. }
        assert (Hn : List.length rest = S (List.length out0)).
        { rewrite <- Hlength, Hsnoc, length_app. simpl. lia. }
        assert (Hlast : nth (List.length out0) out nan = a)
          by (rewrite Hsnoc; apply nth_middle).
        unfold m. rewrite Hsnoc, last_last.
        destruct (Math_max_pair a x Ha Hx') as (Hcases & Hle_a & Hle_x).
        split; [exact (proj2 (leb_not_nan _ _ Hle_x))|].
        split; [exact Hle_x|].
        split.
        + intros i Hi. apply leb_trans with (y := a); [|exact Hle_a].
          destruct (Hattained (List.length out0) ltac:(lia)) as (j & Hj & Heq).
          destruct (Nat.eq_dec i (List.length out0)) as [->|Hneq].
          * rewrite <- Hsnoc, Hlast. apply leb_refl. exact Ha.
          * destruct (Hattained i Hi) as (k & Hk & Hik).
            rewrite <- Hsnoc, Hik, <- Hlast.
            apply Hbound. lia.
        + destruct Hcases as [Hcase|Hcase]; [right|left; exact Hcase].
          exists (List.length out0). split; [lia|]. rewrite <- Hsnoc, Hlast. exact Hcase. }
    destruct Hm as (Hm_nan & Hm_x & Hm_out & Hm_cases).
    split; [apply Forall_app; split; [exact Hout|repeat constructor; exact Hm_nan]|].
    rewrite length_app. simpl List.length.
    split.
    + intros i j Hij.
      destruct (Nat.lt_ge_cases i (List.length rest)) as [Hi|Hi].
      * rewrite !app_nth1 by lia. apply Hbound. lia.
      * replace i with (List.length out) by lia. rewrite nth_middle.
        destruct (Nat.lt_ge_cases j (List.length rest)) as [Hj|Hj].
        -- rewrite app_nth1 by lia.
           destruct (Hattained j Hj) as (k & Hk & Hjk).
           apply leb_trans with (y := nth j out nan); [|apply Hm_out; exact Hj].
           apply Hbound. lia.
        -- replace j with (List.length rest) by lia. rewrite nth_middle. exact Hm_x.
    + intros i Hi.
      destruct (Nat.lt_ge_cases i (List.length rest)) as [Hlt|Hge].
      * destruct (Hattained i Hlt) as (j & Hj & Heq).
        exists j. split; [exact Hj|]. rewrite !app_nth1 by lia. exact Heq.
      * replace i with (List.length out) by lia. rewrite nth_middle.
        destruct Hm_cases as [Hcase|(k & Hk & Hcase)].
        -- exists (List.length rest). split; [lia|]. rewrite nth_middle. exact Hcase.
        -- destruct (Hattained k Hk) as (j & Hj & Heq).
           exists j. split; [lia|]. rewrite app_nth1 by lia. rewrite Hcase. exact Heq.
Qed.

Lemma runningMax_nan (xs : list float) :
  forall i k, (k <= i < List.length xs)%nat -> is_nan (nth k xs nan) = true ->
              nth i (runningMax xs) nan = nan.
Proof.
  induction xs as [|x rest IH] using rev_ind; intros i k Hik Hk; [simpl in Hik; lia|].
  rewrite length_app in Hik. simpl in Hik.
  pose proof (runningMax_length rest) as Hlength.
  rewrite runningMax_snoc.
  destruct (Nat.lt_ge_cases i (List.length rest)) as [Hi|Hi].
  - rewrite app_nth1 by lia. apply (IH i k); [lia|].
    rewrite app_nth1 in Hk by lia. exact Hk.
  - replace i with (List.length (runningMax rest)) by lia. rewrite nth_middle.
    unfold Math_max. simpl.
    destruct (Nat.lt_ge_cases k (List.length rest)) as [Hlt|Hge].
    + rewrite app_nth1 in Hk by lia.
      assert (Hlast : last (runningMax rest) neg_infinity = nan).
      { destruct (@exists_last _ (runningMax rest)) as (out0 & a & Hsnoc).
        - intros Hnil. rewrite Hnil in Hlength. simpl in Hlength. lia.
        - rewrite Hsnoc, last_last.
          rewrite <- (IH (List.length out0) k); [|rewrite Hsnoc, length_app in Hlength;
                                                   simpl in Hlength; lia|exact Hk].
          rewrite Hsnoc, nth_middle. reflexivity. }
      rewrite Hlast. rewrite (maxOf_nan neg_infinity nan) by (right; reflexivity).
      apply maxOf_nan. left. reflexivity.
    + replace k with (List.length rest) in Hk by lia. rewrite nth_middle in Hk.
      apply maxOf_nan. right. exact Hk.
Qed.

(** X11. On an array of numbers none of which is [NaN], entry i of
    [getMaxAsSeries] is the maximum of the entries 0 to i of the data: it is not
    below any of them and it is one of them.  A [NaN] in the data makes every
    entry from its index on [NaN]. *)
Theorem getMaxAsSeries_running_maximum :
  (forall xs : list float,
      Forall notNaN xs ->
      exists maxima,
        getMaxAsSeries (JsArray (map JsNumber xs)) = Return maxima
        /\ List.length maxima = List.length xs
        /\ (forall i j, (j <= i < List.length xs)%nat ->
              (nth j xs nan <=? nth i maxima nan)%float = true)
        /\ (forall i, (i < List.length xs)%nat ->
              exists j, (j <= i)%nat /\ nth i maxima nan = nth j xs nan))
  /\ (forall (xs : list float) (i k : nat),
        (k <= i < List.length xs)%nat -> is_nan (nth k xs nan) = true ->
        exists maxima,
          getMaxAsSeries (JsArray (map JsNumber xs)) = Return maxima
          /\ nth i maxima nan = nan).
Proof.
  split.
  - intros xs Hxs. exists (runningMax xs).
    split; [apply getMaxAsSeries_numbers|].
    split; [apply runningMax_length|].
    exact (proj2 (runningMax_bounds xs Hxs)).
  - intros xs i k Hik Hk. exists (runningMax xs).
    split; [apply getMaxAsSeries_numbers|exact (runningMax_nan xs i k Hik Hk)].
Qed.

Lemma getMaxAsSeries_running_maximum_witness :
  exists maxima,
    getMaxAsSeries marketData = Return maxima
    /\ List.length maxima = List.length marketValues
    /\ (forall i j, (j <= i < List.length marketValues)%nat ->
          (nth j marketValues nan <=? nth i maxima nan)%float = true)
    /\ (forall i, (i < List.length marketValues)%nat ->
          exists j, (j <= i)%nat /\ nth i maxima nan = nth j marketValues nan).
Proof.
  apply (proj1 getMaxAsSeries_running_maximum marketValues).
  repeat constructor.
Defined.

(** ** main.mjs: the series functions *)

Lemma mapi_from_length {A B : Type} (f : nat -> A -> B) (l : list A) :
  forall start, List.length (mapi_from start f l) = List.length l.
Proof.
  induction l as [|x rest IH]; intros start; simpl; [reflexivity|].
  rewrite IH. reflexivity.
Qed.

Lemma mapi_from_nth {A B : Type} (f : nat -> A -> B) (l : list A) (dA : A) (dB : B) :
  forall start i, (i < List.length l)%nat ->
                  nth i (mapi_from start f l) dB = f (start + i)%nat (nth i l dA).
Proof.
  induction l as [|x rest IH]; intros start i Hi; simpl in *; [lia|].
  destruct i as [|i].
  - rewrite Nat.add_0_r. reflexivity.
  - rewrite IH by lia. f_equal. lia.
Qed.

Lemma nth_numbers (xs : list float) (i : nat) :
  (i < List.length xs)%nat ->
  nth i (map JsNumber xs) JsUndefined = JsNumber (nth i xs nan).
Proof.
  intros Hi. rewrite (nth_indep _ JsUndefined (JsNumber nan)) by (rewrite length_map; exact Hi).
  apply map_nth.
Qed.

Lemma div_nan_r (x : float) : (x / nan)%float = nan.
Proof.
  apply Prim2SF_inj. rewrite FloatAxioms.div_spec.
  change (Prim2SF nan) with S754_nan. destruct (Prim2SF x); reflexivity.
Qed.

(** X10. On an array of numbers the four series functions return an array of
    the length of the data; on anything else each throws the error of
    [ensureArray] and nothing else. *)
Theorem series_keep_length :
  (forall xs : list float,
      exists maxima drawdowns changes normalized,
        getMaxAsSeries (JsArray (map JsNumber xs)) = Return maxima
        /\ getRelativeDrawdownAsSeries (JsArray (map JsNumber xs)) = Return drawdowns
        /\ getRelativeChangeAsSeries (JsArray (map JsNumber xs)) = Return changes
        /\ getNormalizedAsSeries (JsArray (map JsNumber xs)) = Return normalized
        /\ List.length maxima = List.length xs
        /\ List.length drawdowns = List.length xs
        /\ List.length changes = List.length xs
        /\ List.length normalized = List.length xs)
  /\ (forall (data : JsValue) (e : Exception),
        ensureArray data (Some "number") = Throw e ->
        getMaxAsSeries data = Throw e
        /\ getRelativeDrawdownAsSeries data = Throw e
        /\ getRelativeChangeAsSeries data = Throw e
        /\ getNormalizedAsSeries data = Throw e).
Proof.
  split.
  - intros xs.
    unfold getRelativeDrawdownAsSeries, getRelativeChangeAsSeries, getNormalizedAsSeries.
    rewrite ensureArray_numbers. simpl bind.
    rewrite getMaxAsSeries_numbers. simpl bind.
    do 4 eexists.
    split; [reflexivity|]. split; [reflexivity|]. split; [reflexivity|].
    split; [reflexivity|].
    unfold mapi. rewrite !mapi_from_length, !length_map, runningMax_length.
    repeat split; reflexivity.
  - intros data e He.
    unfold getMaxAsSeries, getRelativeDrawdownAsSeries, getRelativeChangeAsSeries,
      getNormalizedAsSeries.
    rewrite He. repeat split; reflexivity.
Qed.

Lemma series_keep_length_witness :
  getMaxAsSeries (JsArray [JsNumber 5; JsString "y"; JsNumber 7])
  = Throw (Error [Text "Expected every item of array to be of type "; Text "number";
                  Text ", got items "; Joined [JsString "y"];
                  Text " with types "; JoinedText ["string"]; Text " instead."])
  /\ getRelativeDrawdownAsSeries (JsArray [JsNumber 5; JsString "y"; JsNumber 7])
     = Throw (Error [Text "Expected every item of array to be of type "; Text "number";
                     Text ", got items "; Joined [JsString "y"];
                     Text " with types "; JoinedText ["string"]; Text " instead."])
  /\ getRelativeChangeAsSeries (JsArray [JsNumber 5; JsString "y"; JsNumber 7])
     = Throw (Error [Text "Expected every item of array to be of type "; Text "number";
                     Text ", got items "; Joined [JsString "y"];
                     Text " with types "; JoinedText ["string"]; Text " instead."])
  /\ getNormalizedAsSeries (JsArray [JsNumber 5; JsString "y"; JsNumber 7])
     = Throw (Error [Text "Expected every item of array to be of type "; Text "number";
                     Text ", got items "; Joined [JsString "y"];
                     Text " with types "; JoinedText ["string"]; Text " instead."]).
Proof.
  apply (proj2 series_keep_length). reflexivity.
Defined.

(** X12. The first entry of [getRelativeChangeAsSeries] is [NaN] whatever the
    first number is, and every later entry is the number divided by the one
    before it, less 1. *)
Theorem getRelativeChangeAsSeries_entries (xs : list float) :
  exists changes,
    getRelativeChangeAsSeries (JsArray (map JsNumber xs)) = Return changes
    /\ List.length changes = List.length xs
    /\ (xs <> [] -> nth 0 changes 0%float = nan)
    /\ (forall i, (S i < List.length xs)%nat ->
          nth (S i) changes nan = (nth (S i) xs nan / nth i xs nan - 1)%float).
Proof.
  unfold getRelativeChangeAsSeries. rewrite ensureArray_numbers. simpl bind.
  eexists. split; [reflexivity|].
  unfold mapi.
  split; [rewrite mapi_from_length, length_map; reflexivity|].
  split.
  - intros Hne. destruct xs as [|x rest]; [congruence|]. simpl.
    unfold numberAt. simpl. rewrite div_nan_r. reflexivity.
  - intros i Hi.
    rewrite (mapi_from_nth _ _ JsUndefined) by (rewrite length_map; exact Hi).
    simpl Nat.add. rewrite nth_numbers by exact Hi. simpl numberOf.
    unfold numberAt.
    destruct (Z.ltb_spec (Z.of_nat (S i) - 1) 0) as [Hneg|_]; [lia|].
    replace (Z.to_nat (Z.of_nat (S i) - 1)) with i by lia.
    rewrite nth_numbers by lia. reflexivity.
Qed.

Lemma number_items (items : list JsValue) :
  Forall (fun item => typeof item = "number") items -> exists xs, items = map JsNumber xs.
Proof.
  induction 1 as [|item rest Hitem _ [xs ->]].
  - exists []. reflexivity.
  - destruct item; try discriminate Hitem.
    match goal with n : float |- _ => exists (n :: xs) end. reflexivity.
Qed.

Lemma ensureArray_number_items (data : JsValue) (items : list JsValue) :
  ensureArray data (Some "number") = Return items ->
  exists xs, data = JsArray (map JsNumber xs) /\ items = map JsNumber xs.
Proof.
  destruct data as [| | | | | | |array]; try discriminate. simpl.
  destruct (filter (fun item => negb (typeof item =? "number")%string) array) eqn:Hfilter;
    [|discriminate].
  intros H. injection H as <-.
  apply filter_nil_Forall in Hfilter.
  destruct (number_items array) as [xs ->]; [|exists xs; split; reflexivity].
  eapply Forall_impl; [|exact Hfilter]. simpl. intros item Hitem.
  apply negb_false_iff in Hitem. apply String.eqb_eq. exact Hitem.
Qed.

Lemma numbers_of_numbers (xs : list float) : map numberOf (map JsNumber xs) = xs.
Proof. rewrite map_map. simpl. apply map_id. Qed.

(** ** main.mjs: averages and ratios *)

(** X13. [getAverage] returns exactly on a non-empty array of numbers: the sum
    from the first item on, divided by the length.  The empty array is not
    averaged: the reduction without an initial value throws a [TypeError]. *)
Theorem getAverage_returns_iff :
  (forall (x : float) (xs : list float),
      getAverage (JsArray (map JsNumber (x :: xs)))
      = Return (fold_left (fun sum item => sum + item)%float xs x
                / toNumber (Z.of_nat (List.length (x :: xs))))%float)
  /\ getAverage (JsArray []) = Throw (TypeError "reduce" (JsArray []))
  /\ (forall (data : JsValue) (result : float),
        getAverage data = Return result ->
        exists x xs, data = JsArray (map JsNumber (x :: xs))).
Proof.
  split; [|split; [reflexivity|]].
  - intros x xs. unfold getAverage. rewrite ensureArray_numbers. simpl bind.
    rewrite numbers_of_numbers, length_map. reflexivity.
  - intros data result. unfold getAverage.
    destruct (ensureArray data (Some "number")) as [items|e] eqn:Hitems; [|discriminate].
    destruct (ensureArray_number_items data items Hitems) as (xs & -> & ->).
    destruct xs as [|x xs]; [discriminate|].
    intros _. exists x, xs. reflexivity.
Qed.

Lemma getAverage_returns_iff_witness :
  exists x xs, marketData = JsArray (map JsNumber (x :: xs)).
Proof.
  apply (proj2 (proj2 getAverage_returns_iff) marketData 4%float). reflexivity.
Defined.

Lemma getRelativeChangeAsSeries_numbers (xs : list float) :
  exists changes,
    getRelativeChangeAsSeries (JsArray (map JsNumber xs)) = Return changes
    /\ List.length changes = List.length xs.
Proof.
  unfold getRelativeChangeAsSeries. rewrite ensureArray_numbers. simpl bind.
  eexists. split; [reflexivity|].
  unfold mapi. rewrite mapi_from_length, length_map. reflexivity.
Qed.

(** X14. [getSortino] never throws on an array of numbers, whatever the power
    function of the host computes: the one reduction that could throw is only
    reached with a fall among the changes.  It returns 0 for fewer than two
    numbers, and whenever no change after the first is below 0. *)
Theorem getSortino_returns (Math_pow : float -> float -> float) (xs : list float) :
  exists result changes,
    getSortino Math_pow (JsArray (map JsNumber xs)) = Return result
    /\ getRelativeChangeAsSeries (JsArray (map JsNumber xs)) = Return changes
    /\ ((List.length xs < 2)%nat -> result = 0%float)
    /\ (Forall (fun change => (change <? 0)%float = false) (tl changes) -> result = 0%float).
Proof.
  destruct (getRelativeChangeAsSeries_numbers xs) as (changes & Hchanges & Hlength).
  unfold getSortino. rewrite Hchanges. simpl bind.
  destruct (filter (fun item => (item <? 0)%float) (tl changes)) as [|down downs] eqn:Hdowns.
  - exists 0%float, changes. simpl. repeat split; reflexivity.
  - assert (Htl : tl changes <> []).
    { intros Hnil. rewrite Hnil in Hdowns. discriminate Hdowns. }
    simpl Nat.eqb. cbv iota. simpl reduce1. simpl bind.
    unfold getAverage. rewrite ensureArray_numbers. simpl bind.
    rewrite numbers_of_numbers.
    destruct (tl changes) as [|change rest] eqn:Hrest; [congruence|].
    simpl reduce1. simpl bind.
    eexists. exists changes. split; [reflexivity|]. split; [reflexivity|]. split.
    + intros Hshort. exfalso.
      destruct changes as [|c0 [|c1 cs]]; simpl in *; try discriminate; lia.
    + intros Hnone. exfalso. rewrite Hrest in Hnone. rewrite <- Hrest in Hdowns.
      rewrite Hrest in Hdowns.
      assert (Hnil : filter (fun item => (item <? 0)%float) (change :: rest) = [])
        by (apply filter_nil_Forall; exact Hnone).
      rewrite Hnil in Hdowns. discriminate Hdowns.
Qed.

(** X15. [getRelativeTimeInMarket] needs two numbers: on a single number,
    whichever it is, it returns 1 - 0 / 0 = [NaN], and on the empty array
    1 - 0 / -1 = 1. *)
Theorem getRelativeTimeInMarket_short :
  (forall x : float, getRelativeTimeInMarket (JsArray [JsNumber x]) = Return nan)
  /\ getRelativeTimeInMarket (JsArray []) = Return 1%float.
Proof.
  split; [|reflexivity].
  intros x. unfold getRelativeTimeInMarket, getRelativeChangeAsSeries.
  change (JsArray [JsNumber x]) with (JsArray (map JsNumber [x])).
  rewrite ensureArray_numbers. simpl bind.
  unfold mapi. simpl mapi_from. unfold numberAt. simpl.
  rewrite div_nan_r. reflexivity.
Qed.





Lemma getCAGR_returns_numbers (Math_pow : float -> float -> float)
    (data startDate endDate : JsValue) (cagr : float) :
  getCAGR Math_pow data startDate endDate = Return cagr ->
  exists xs, data = JsArray (map JsNumber xs).
Proof.
  unfold getCAGR.
  destruct (instanceofDate startDate); [|discriminate].
  destruct (instanceofDate endDate); [|discriminate]. simpl.
  destruct (getTime startDate) as [start|e]; [|discriminate].
  destruct (getTime endDate) as [finish|e]; [|discriminate]. simpl.
  destruct (start >=? finish); [discriminate|].
  unfold getCumulativeReturn.
  destruct (ensureArray data (Some "number")) as [items|e] eqn:Hitems; [|discriminate].
  intros _. destruct (ensureArray_number_items data items Hitems) as (xs & -> & _).
  exists xs. reflexivity.
Qed.

Lemma getRelativeDrawdownAsSeries_numbers (xs : list float) :
  getRelativeDrawdownAsSeries (JsArray (map JsNumber xs))
  = Return (mapi (fun index item => (numberOf item / nth index (runningMax xs) nan - 1)%float)
                 (map JsNumber xs)).
Proof.
  unfold getRelativeDrawdownAsSeries. rewrite ensureArray_numbers. simpl bind.
  rewrite getMaxAsSeries_numbers. reflexivity.
Qed.

(** X19. [getCalmar] throws exactly what [getCAGR] throws; once [getCAGR] has
    returned, the drawdown series cannot throw, and the ratio is returned. *)
Theorem getCalmar_follows_getCAGR (Math_pow : float -> float -> float)
    (data startDate endDate : JsValue) :
  (forall e, getCAGR Math_pow data startDate endDate = Throw e ->
             getCalmar Math_pow data startDate endDate = Throw e)
  /\ (forall cagr,
        getCAGR Math_pow data startDate endDate = Return cagr ->
        exists series,
          getRelativeDrawdownAsSeries data = Return series
          /\ getCalmar Math_pow data startDate endDate
             = Return (cagr / Math_max (map PrimFloat.abs series))%float).
Proof.
  split.
  - intros e He. unfold getCalmar. rewrite He. reflexivity.
  - intros cagr Hcagr.
    destruct (getCAGR_returns_numbers _ _ _ _ _ Hcagr) as [xs ->].
    unfold getCalmar. rewrite Hcagr. simpl bind.
    rewrite getRelativeDrawdownAsSeries_numbers. simpl bind.
    eexists. split; reflexivity.
Qed.

Lemma getCalmar_follows_getCAGR_witness :
  getCalmar (fun x y => x) marketData (JsDate 1672617600000) (JsDate 1672531200000)
  = Throw (dateOrderError (JsDate 1672617600000) (JsDate 1672531200000)).
Proof.
  apply (proj1 (getCalmar_follows_getCAGR (fun x y => x) marketData
                  (JsDate 1672617600000) (JsDate 1672531200000))).
  reflexivity.
Defined.

(** ** main.mjs: the largest drawdown and the robust ratio *)

Lemma leb_infinity_eq (x : float) : (infinity <=? x)%float = true -> x = infinity.
Proof.
  rewrite FloatAxioms.leb_spec. intros H. apply Prim2SF_inj.
  change (Prim2SF infinity) with (S754_infinity false) in *.
  destruct (Prim2SF x) as [s|s| |s m e]; simpl in H; try discriminate H.
  destruct s; [discriminate H|reflexivity].
Qed.

Lemma fold_minOf_bounds (xs : list float) :
  forall lowest : float,
    notNaN lowest -> Forall notNaN xs ->
    notNaN (fold_left minOf xs lowest)
    /\ (fold_left minOf xs lowest <=? lowest)%float = true
    /\ (forall x, In x xs -> (fold_left minOf xs lowest <=? x)%float = true)
    /\ (fold_left minOf xs lowest = lowest \/ In (fold_left minOf xs lowest) xs).
Proof.
  induction xs as [|x rest IH]; intros lowest Hlowest Hxs; simpl.
  - split; [exact Hlowest|]. split; [apply leb_refl; exact Hlowest|].
    split; [intros x []|left; reflexivity].
  - inversion Hxs as [|? ? Hx Hrest]; subst.
    destruct (minOf_cases lowest x Hlowest Hx) as (Hcases & Hle_lowest & Hle_x).
    assert (Hstep : notNaN (minOf lowest x)) by exact (proj1 (leb_not_nan _ _ Hle_x)).
    destruct (IH (minOf lowest x) Hstep Hrest) as (Hnan & Hle & Hall & Hin).
    split; [exact Hnan|].
    split; [exact (leb_trans _ _ _ Hle Hle_lowest)|].
    split.
    + intros y [<-|Hy]; [exact (leb_trans _ _ _ Hle Hle_x)|exact (Hall y Hy)].
    + destruct Hin as [Heq|Hin]; [|right; right; exact Hin].
      rewrite Heq. destruct Hcases as [->| ->]; [left; reflexivity|right; left; reflexivity].
Qed.

Lemma fold_minOf_nan (xs : list float) : fold_left minOf xs nan = nan.
Proof.
  induction xs as [|x rest IH]; simpl; [reflexivity|].
  rewrite (minOf_nan nan x) by (left; reflexivity). exact IH.
Qed.

Lemma fold_minOf_poisoned (xs : list float) :
  forall lowest : float,
    Exists (fun x => is_nan x = true) xs -> fold_left minOf xs lowest = nan.
Proof.
  induction xs as [|x rest IH]; intros lowest Hnan; simpl; inversion Hnan; subst.
  - rewrite (minOf_nan lowest x) by (right; assumption). apply fold_minOf_nan.
  - apply IH. assumption.
Qed.

(** X18. [getMaxRelativeDrawdown] is the smallest entry of the drawdown
    series: not above any entry and, on a series that is not empty, one of
    them, as long as no entry is [NaN]; a single [NaN] entry makes it [NaN];
    and for the empty array it is +Infinity. *)
Theorem getMaxRelativeDrawdown_smallest :
  (forall (data : JsValue) (series : list float),
      getRelativeDrawdownAsSeries data = Return series ->
      exists drawdown,
        getMaxRelativeDrawdown data = Return drawdown
        /\ (Forall notNaN series ->
            (forall entry, In entry series -> (drawdown <=? entry)%float = true)
            /\ (series <> [] -> In drawdown series))
        /\ (Exists (fun entry => is_nan entry = true) series -> drawdown = nan))
  /\ getMaxRelativeDrawdown (JsArray []) = Return infinity.
Proof.
  split; [|reflexivity].
  intros data series Hseries. exists (Math_min series).
  unfold getMaxRelativeDrawdown. rewrite Hseries.
  split; [reflexivity|]. split.
  - intros Hnan. unfold Math_min.
    destruct (fold_minOf_bounds series infinity eq_refl Hnan) as (_ & Hle & Hall & Hin).
    split; [exact Hall|].
    intros Hne. destruct Hin as [Heq|Hin]; [|exact Hin].
    destruct series as [|entry rest]; [congruence|].
    pose proof (Hall entry (or_introl eq_refl)) as Hentry.
    rewrite Heq in Hentry. apply leb_infinity_eq in Hentry.
    rewrite Heq, <- Hentry. left. reflexivity.
  - intros Hnan. apply fold_minOf_poisoned. exact Hnan.
Qed.

Lemma getMaxRelativeDrawdown_smallest_witness :
  exists drawdown,
    getMaxRelativeDrawdown recoveringData = Return drawdown
    /\ (Forall notNaN recoveringDrawdowns ->
        (forall entry, In entry recoveringDrawdowns -> (drawdown <=? entry)%float = true)
        /\ (recoveringDrawdowns <> [] -> In drawdown recoveringDrawdowns))
    /\ (Exists (fun entry => is_nan entry = true) recoveringDrawdowns -> drawdown = nan).
Proof.
  apply (proj1 getMaxRelativeDrawdown_smallest recoveringData). vm_compute. reflexivity.
Defined.

Lemma forallb_validPair_numbers (data dates : list JsValue) :
  List.length data = List.length dates ->
  forallb validPair (combine data dates) = true ->
  exists xs, data = map JsNumber xs.
Proof.
  intros Hlength Hall. apply number_items.
  revert dates Hlength Hall. induction data as [|value rest IH]; intros dates Hlength Hall.
  - constructor.
  - destruct dates as [|date dates]; [discriminate Hlength|].
    simpl in Hall. apply andb_true_iff in Hall. destruct Hall as [Hpair Hrest].
    unfold validPair in Hpair. simpl in Hpair.
    apply andb_true_iff in Hpair. destruct Hpair as [Hvalue _].
    constructor; [apply String.eqb_eq; exact Hvalue|].
    apply (IH dates); [simpl in Hlength; lia|exact Hrest].
Qed.

Lemma cagr_returns_numbers (data dates : JsValue) (cagr : float) :
  getLinearRegressionCAGR data dates = Return cagr ->
  exists xs, data = JsArray (map JsNumber xs).
Proof.
  unfold getLinearRegressionCAGR.
  destruct data as [| | | | | | |items]; try discriminate.
  destruct dates as [| | | | | | |dateItems]; try discriminate.
  simpl ensureArray. simpl bind.
  destruct (Nat.eqb_spec (List.length items) (List.length dateItems)) as [Hlength|_];
    [|discriminate].
  simpl negb. cbv iota.
  unfold getWindows at 1.
  rewrite (mergeData_combine items dateItems Hlength) at 1.
  rewrite every_merged.
  destruct (forallb validPair (combine items dateItems)) eqn:Hall; [|discriminate].
  intros _. destruct (forallb_validPair_numbers items dateItems Hlength Hall) as [xs ->].
  exists xs. reflexivity.
Qed.

Lemma getMaxRelativeDrawdown_numbers (xs : list float) :
  exists drawdown, getMaxRelativeDrawdown (JsArray (map JsNumber xs)) = Return drawdown.
Proof.
  unfold getMaxRelativeDrawdown. rewrite getRelativeDrawdownAsSeries_numbers.
  eexists. reflexivity.
Qed.

Lemma bind_Return {A B : Type} (a : A) (k : A -> Completion B) : bind (Return a) k = k a.
Proof. reflexivity. Qed.

Lemma cagr_single_nan (value : float) (time : Z) :
  getLinearRegressionCAGR (JsArray [JsNumber value]) (JsArray [JsDate time]) = Return nan.
Proof.
  unfold getLinearRegressionCAGR. simpl ensureArray. simpl bind. simpl negb. cbv iota.
  unfold mergeData, mapi. simpl mapi_from.
  rewrite getWindows_valid; [|repeat constructor|discriminate|reflexivity|reflexivity].
  rewrite windowsOver_single by reflexivity. reflexivity.
Qed.

(** X17. [getRobustRatio] throws exactly what [getLinearRegressionCAGR]
    throws.  Once the estimate is returned the data is an array of numbers, the
    largest drawdown cannot throw, and the product is returned; for a single
    observation it is [NaN]. *)
Theorem getRobustRatio_follows_estimate :
  (forall (data dates : JsValue) (e : Exception),
      getLinearRegressionCAGR data dates = Throw e -> getRobustRatio data dates = Throw e)
  /\ (forall (data dates : JsValue) (cagr : float),
        getLinearRegressionCAGR data dates = Return cagr ->
        exists drawdown,
          getMaxRelativeDrawdown data = Return drawdown
          /\ getRobustRatio data dates = Return (cagr * (1 + drawdown))%float)
  /\ (forall (value : float) (time : Z),
        getRobustRatio (JsArray [JsNumber value]) (JsArray [JsDate time]) = Return nan).
Proof.
  split; [|split].
  - intros data dates e He. unfold getRobustRatio. rewrite He. reflexivity.
  - intros data dates cagr Hcagr.
    destruct (cagr_returns_numbers data dates cagr Hcagr) as [xs ->].
    destruct (getMaxRelativeDrawdown_numbers xs) as [drawdown Hdrawdown].
    exists drawdown. split; [exact Hdrawdown|].
    unfold getRobustRatio. rewrite Hcagr, Hdrawdown. reflexivity.
  - intros value time. unfold getRobustRatio.
    rewrite cagr_single_nan, bind_Return.
    destruct (getMaxRelativeDrawdown_numbers [value]) as [drawdown Hdrawdown].
    simpl map in Hdrawdown. rewrite Hdrawdown, bind_Return, mul_nan_l. reflexivity.
Qed.

Lemma getRobustRatio_follows_estimate_witness :
  getRobustRatio (JsArray []) (JsArray []) = Throw (TypeError "date" JsUndefined).
Proof.
  apply (proj1 getRobustRatio_follows_estimate). reflexivity.
Defined.

(** X20. A [NaN] among the numbers spreads: every drawdown from its index on
    is [NaN], and so is the largest drawdown. *)
Theorem drawdown_nan_spreads (xs : list float) (k : nat) :
  (k < List.length xs)%nat -> is_nan (nth k xs nan) = true ->
  exists drawdowns,
    getRelativeDrawdownAsSeries (JsArray (map JsNumber xs)) = Return drawdowns
    /\ (forall i, (k <= i < List.length xs)%nat -> nth i drawdowns 0%float = nan)
    /\ getMaxRelativeDrawdown (JsArray (map JsNumber xs)) = Return nan.
Proof.
  intros Hk Hnan.
  assert (Hentries :
    forall i, (k <= i < List.length xs)%nat ->
      nth i (mapi (fun index item =>
                     (numberOf item / nth index (runningMax xs) nan - 1)%float)
                  (map JsNumber xs)) 0%float = nan).
  { intros i Hi. unfold mapi.
    rewrite (mapi_from_nth _ _ JsUndefined) by (rewrite length_map; lia).
    simpl Nat.add. rewrite (runningMax_nan xs i k Hi Hnan), div_nan_r. reflexivity. }
  eexists. split; [apply getRelativeDrawdownAsSeries_numbers|].
  split; [exact Hentries|].
  unfold getMaxRelativeDrawdown. rewrite getRelativeDrawdownAsSeries_numbers, bind_Return.
  f_equal. apply fold_minOf_poisoned. apply Exists_exists.
  exists (nth k (mapi (fun index item =>
                         (numberOf item / nth index (runningMax xs) nan - 1)%float)
                      (map JsNumber xs)) 0%float).
  split.
  - apply nth_In. unfold mapi. rewrite mapi_from_length, length_map. exact Hk.
  - rewrite (Hentries k) by lia. reflexivity.
Qed.

Lemma drawdown_nan_spreads_witness :
  exists drawdowns,
    getRelativeDrawdownAsSeries (JsArray (map JsNumber [4; nan; 2]%float)) = Return drawdowns
    /\ (forall i, (1 <= i < List.length [4; nan; 2]%float)%nat -> nth i drawdowns 0%float = nan)
    /\ getMaxRelativeDrawdown (JsArray (map JsNumber [4; nan; 2]%float)) = Return nan.
Proof.
  apply (drawdown_nan_spreads [4; nan; 2]%float 1); [simpl; lia|reflexivity].
Defined.

(** X21. When no window yields a rate, the estimate is the returned value
    0 / 0 = [NaN], and no window span is read; so it is whenever every window
    holds fewer than two observations. *)
Theorem cagr_nan_without_rate
    (data dates : list JsValue) (windows : list (list JsValue)) :
  List.length data = List.length dates ->
  getWindows (JsArray (mergeData data dates)) yearInMs (Some (yearInMs / 2)) = Return windows ->
  retainedWindows windows = []
  \/ Forall (fun window => (List.length window < 2)%nat) windows ->
  getLinearRegressionCAGR (JsArray data) (JsArray dates) = Return nan.
Proof.
  intros Hlength Hwindows Hnone.
  assert (Hretained : retainedWindows windows = []).
  { destruct Hnone as [Hnone|Hshort]; [exact Hnone|].
    unfold retainedWindows. apply filter_nil_Forall.
    eapply Forall_impl; [|exact Hshort]. simpl. intros window Hwindow.
    rewrite (ratioOf_short window Hwindow). reflexivity. }
  pose proof (getWindows_windows_valid _ _ _ _ Hwindows) as Hvalid.
  unfold getLinearRegressionCAGR. simpl ensureArray. rewrite !bind_Return.
  rewrite Hlength, Nat.eqb_refl. simpl negb. cbv iota.
  rewrite Hwindows, bind_Return, (growthRates_valid _ Hvalid), bind_Return.
  unfold validGrowthRatesOf.
  rewrite filter_map_commute. fold (retainedWindows windows). rewrite Hretained.
  reflexivity.
Qed.

Lemma cagr_nan_without_rate_witness :
  getLinearRegressionCAGR
    (JsArray [JsNumber 1; JsNumber 2])
    (JsArray [JsDate 1704067200000; JsDate (1704067200000 + yearInMs)])
  = Return nan.
Proof.
  apply (cagr_nan_without_rate
           [JsNumber 1; JsNumber 2]
           [JsDate 1704067200000; JsDate (1704067200000 + yearInMs)]
           [[JsObject [("value", JsNumber 1); ("date", JsDate 1704067200000)]];
            [JsObject [("value", JsNumber 2); ("date", JsDate (1704067200000 + yearInMs))]]]).
  - reflexivity.
  - reflexivity.
  - right. repeat constructor.
Defined.
